(** * Bus routing: a shallow embedding of [main.py] and [geocode_addresses.py]

    The two scripts are translated function by function.  Python values
    that cross a library boundary (CSV cells, decoded JSON) are kept in one
    dynamic type [value]; exceptions, console output and the calls to the
    outside services are threaded through a state-and-error monad [M].

    What lies outside the repository is a parameter of the development:
    - the conversions of text to numbers done by Python's [int] and [float]
      (class [Builtins]);
    - the OpenRouteService client and the OR-Tools routing library
      (class [Collaborators]), which may answer differently from call to call
      and therefore read and update an abstract world state.

    File arguments ([students_csv], [buses_csv], [input_csv]) stand for the
    sequence of records that [csv.reader] yields on the named file.  A
    [print] is recorded as an event that carries the values the message
    shows; the division by 1000 and the two-decimal formatting of the
    distances are floating-point text formatting and stay outside the model.
    The one loop that may run forever, the route walk of [print_solution],
    takes fuel and ends in [Diverge] when it runs out. *)

From Stdlib Require Import ZArith String Ascii.
From stdpp Require Import base option numbers strings list gmap.

Set Warnings "-register-all,-clear-no-such-hyp".
Local Open Scope Z_scope.

(** ** Python values *)

(** A binary float: a finite value [m * 2^e], an infinity, or not-a-number. *)
Inductive pyfloat :=
| FFinite (m e : Z)
| FInf (negative : bool)
| FNan.

Inductive value :=
| VNone
| VBool (b : bool)
| VInt (z : Z)
| VFloat (f : pyfloat)
| VStr (s : string)
| VList (l : list value)
| VDict (d : list (string * value)).

(** The exceptions the scripts can meet; all derive from [Exception]. *)
Inductive exn :=
| KeyError
| IndexError
| TypeError
| ValueError
| OverflowError
| ServiceError (msg : string).

Inductive result (A : Type) :=
| Ok (a : A)
| Raise (e : exn)
| Diverge.
Arguments Ok {A} a.
Arguments Raise {A} e.
Arguments Diverge {A}.

(** How a call of a service ends: with a value, or with an exception. *)
Inductive outcome (A : Type) :=
| Returns (a : A)
| Throws (e : exn).
Arguments Returns {A} a.
Arguments Throws {A} e.

Definition result_of {A} (o : outcome A) : result A :=
  match o with
  | Returns a => Ok a
  | Throws e => Raise e
  end.

(** [bool(v)] *)
Definition truthy (v : value) : bool :=
  match v with
  | VNone => false
  | VBool b => b
  | VInt z => negb (z =? 0)
  | VFloat (FFinite m _) => negb (m =? 0)
  | VFloat _ => true
  | VStr s => negb (String.eqb s "")
  | VList l => match l with [] => false | _ => true end
  | VDict d => match d with [] => false | _ => true end
  end.

(** [l[i]] on a Python sequence: negative indices count from the end. *)
Definition py_index {A} (l : list A) (i : Z) : result A :=
  let n := Z.of_nat (length l) in
  let j := if i <? 0 then i + n else i in
  if (j <? 0) || (n <=? j) then Raise IndexError
  else match l !! Z.to_nat j with
       | Some x => Ok x
       | None => Raise IndexError
       end.

(** Lookup in a decoded JSON object. *)
Fixpoint assoc (k : string) (d : list (string * value)) : option value :=
  match d with
  | [] => None
  | (k', v) :: d' => if String.eqb k k' then Some v else assoc k d'
  end.

(** The characters of a text, each a text of its own (a text is kept as its
    bytes, so this is Python's indexing on ASCII text). *)
Definition chars (s : string) : list value :=
  (fun c => VStr (String c EmptyString)) <$> list_ascii_of_string s.

(** [x[k]] on a decoded JSON value. *)
Definition getitem (x k : value) : result value :=
  match x, k with
  | VDict d, VStr s => match assoc s d with Some v => Ok v | None => Raise KeyError end
  | VDict _, (VList _ | VDict _) => Raise TypeError
  | VDict _, _ => Raise KeyError
  | VList l, VInt i => py_index l i
  | VList l, VBool b => py_index l (if b then 1 else 0)
  | VStr s, VInt i => py_index (chars s) i
  | VStr s, VBool b => py_index (chars s) (if b then 1 else 0)
  | _, _ => Raise TypeError
  end.

(** [iter(x)], as a [for] loop or a comprehension consumes it. *)
Definition py_iter (x : value) : result (list value) :=
  match x with
  | VList l => Ok l
  | VStr s => Ok (chars s)
  | VDict d => Ok ((fun kv => VStr kv.1) <$> d)
  | _ => Raise TypeError
  end.

(** The conversions Python's runtime provides and this development does not
    define: parsing of integer and float literals, and rounding of an integer
    to a float. *)
Class Builtins := {
  int_of_str : string -> option Z;
  float_of_str : string -> option pyfloat;
  float_of_Z : Z -> option pyfloat
}.

Section Conversions.
Context {py : Builtins}.

(** [int(v)]: floats are truncated toward zero. *)
Definition py_int (v : value) : result Z :=
  match v with
  | VNone => Raise TypeError
  | VBool b => Ok (if b then 1 else 0)
  | VInt z => Ok z
  | VFloat (FFinite m e) =>
      Ok (if 0 <=? e then m * 2 ^ e else Z.quot m (2 ^ (- e)))
  | VFloat (FInf _) => Raise OverflowError
  | VFloat FNan => Raise ValueError
  | VStr s => match int_of_str s with Some z => Ok z | None => Raise ValueError end
  | VList _ | VDict _ => Raise TypeError
  end.

(** [float(v)] *)
Definition py_float (v : value) : result pyfloat :=
  match v with
  | VNone => Raise TypeError
  | VBool b => Ok (FFinite (if b then 1 else 0) 0)
  | VInt z => match float_of_Z z with Some f => Ok f | None => Raise OverflowError end
  | VFloat f => Ok f
  | VStr s => match float_of_str s with Some f => Ok f | None => Raise ValueError end
  | VList _ | VDict _ => Raise TypeError
  end.
End Conversions.

(** ** The outside world *)

(** A coordinate as the scripts pass it to OpenRouteService: (lon, lat). *)
Definition coord : Type := pyfloat * pyfloat.

(** The keyword arguments of [client.distance_matrix]. *)
Record matrix_request := {
  locations : list coord;
  profile : string;
  metrics : list string;
  units : string
}.

Inductive FirstSolutionStrategy := FSS_AUTOMATIC | PATH_CHEAPEST_ARC.
Inductive LocalSearchMetaheuristic := LSM_AUTOMATIC | GREEDY_DESCENT | GUIDED_LOCAL_SEARCH.

(** The fields of OR-Tools' search parameters that [main.py] touches.
    [time_limit_seconds = None] leaves the library's own limit in place. *)
Record search_parameters := {
  first_solution_strategy : FirstSolutionStrategy;
  local_search_metaheuristic : LocalSearchMetaheuristic;
  time_limit_seconds : option Z
}.

Definition DefaultRoutingSearchParameters : search_parameters :=
  {| first_solution_strategy := FSS_AUTOMATIC;
     local_search_metaheuristic := LSM_AUTOMATIC;
     time_limit_seconds := None |}.

(** [pywrapcp.RoutingIndexManager(num_nodes, num_vehicles, depot)] *)
Record RoutingIndexManager := {
  num_nodes : Z;
  manager_num_vehicles : Z;
  manager_depot : Z
}.

Inductive callback :=
| Transit (f : Z -> Z -> result Z)
| UnaryTransit (f : Z -> result Z).

(** [AddDimensionWithVehicleCapacity(evaluator, slack_max, capacities,
    fix_start_cumul_to_zero, name)] *)
Record dimension := {
  dim_evaluator : nat;
  dim_slack_max : Z;
  dim_capacities : list Z;
  dim_fix_start_cumul_to_zero : bool;
  dim_name : string
}.

(** [pywrapcp.RoutingModel(manager)] and what the script registers on it. *)
Record RoutingModel := {
  routing_manager : RoutingIndexManager;
  callbacks : list callback;
  arc_cost_evaluator : option nat;
  dimensions : list dimension
}.

Definition new_RoutingModel (manager : RoutingIndexManager) : RoutingModel :=
  {| routing_manager := manager; callbacks := []; arc_cost_evaluator := None;
     dimensions := [] |}.

(** Registering a callback returns its index. *)
Definition RegisterTransitCallback (routing : RoutingModel) (f : Z -> Z -> result Z)
  : RoutingModel * nat :=
  ({| routing_manager := routing_manager routing;
      callbacks := callbacks routing ++ [Transit f];
      arc_cost_evaluator := arc_cost_evaluator routing;
      dimensions := dimensions routing |}, length (callbacks routing)).

Definition RegisterUnaryTransitCallback (routing : RoutingModel) (f : Z -> result Z)
  : RoutingModel * nat :=
  ({| routing_manager := routing_manager routing;
      callbacks := callbacks routing ++ [UnaryTransit f];
      arc_cost_evaluator := arc_cost_evaluator routing;
      dimensions := dimensions routing |}, length (callbacks routing)).

Definition SetArcCostEvaluatorOfAllVehicles (routing : RoutingModel) (cb : nat)
  : RoutingModel :=
  {| routing_manager := routing_manager routing;
     callbacks := callbacks routing;
     arc_cost_evaluator := Some cb;
     dimensions := dimensions routing |}.

Definition AddDimensionWithVehicleCapacity (routing : RoutingModel) (cb : nat)
    (slack_max : Z) (capacities : list Z) (fix_start : bool) (name : string)
  : RoutingModel :=
  {| routing_manager := routing_manager routing;
     callbacks := callbacks routing;
     arc_cost_evaluator := arc_cost_evaluator routing;
     dimensions := dimensions routing ++
       [{| dim_evaluator := cb; dim_slack_max := slack_max;
           dim_capacities := capacities;
           dim_fix_start_cumul_to_zero := fix_start; dim_name := name |}] |}.

(** [routing.GetArcCostForVehicle(from, to, vehicle)]: with no fixed vehicle
    cost and no dimension cost set, OR-Tools answers zero for a self arc and
    the registered arc cost evaluator's value otherwise. *)
Definition GetArcCostForVehicle (routing : RoutingModel) (from to vehicle : Z)
  : result Z :=
  if from =? to then Ok 0
  else match arc_cost_evaluator routing with
       | None => Ok 0
       | Some cb =>
           match callbacks routing !! cb with
           | Some (Transit f) => f from to
           | Some (UnaryTransit f) => f from
           | None => Ok 0
           end
       end.

(** A solution, read through [solution.Value(routing.NextVar(index))]. *)
Definition assignment : Type := Z -> Z.

(** The services the scripts call.  [W] is the state of the outside world
    (network, clock, solver internals): a call reads it and may change it. *)
Class Collaborators (W : Type) := {
  (** [openrouteservice.Client(key).distance_matrix(...)] *)
  ors_distance_matrix : string -> matrix_request -> W -> outcome value * W;
  (** [openrouteservice.Client(key).pelias_search(text, size=...)] *)
  ors_pelias_search : string -> value -> Z -> W -> outcome value * W;
  (** [manager.IndexToNode(index)] *)
  IndexToNode : RoutingIndexManager -> Z -> Z;
  (** [routing.Start(vehicle)] *)
  Start : RoutingModel -> Z -> Z;
  (** [routing.IsEnd(index)] *)
  IsEnd : RoutingModel -> Z -> bool;
  (** [routing.SolveWithParameters(params)]; [None] is Python's falsy result. *)
  SolveWithParameters : RoutingModel -> search_parameters -> W -> option assignment * W
}.

(** ** Console output, file output and service calls, as events *)

Inductive event :=
(** [print(f"... Skipping student {row['name']} (missing coordinates)")] *)
| Skipping (name : value)
(** a call of [client.distance_matrix] with the client's key *)
| DistanceMatrixCall (key : string) (req : matrix_request)
(** a call of [routing.SolveWithParameters] *)
| SolveCall (routing : RoutingModel) (params : search_parameters)
(** [print(f"\nBus {id} (Capacity {capacity})")] *)
| BusHeader (id capacity : Z)
(** [print("Assigned Students:", route_students)] *)
| AssignedStudents (names : list value)
(** [print("Route (coords):", [...])] *)
| RouteCoords (cs : list coord)
(** [print(f"Distance: {route_dist/1000:.2f} km")], carrying [route_dist] *)
| RouteDistance (route_dist : Z)
(** [print(f"\nTotal Distance (all buses): {total_dist/1000:.2f} km")],
    carrying [total_dist] *)
| TotalDistance (total_dist : Z)
(** [print("No solution found.")] *)
| NoSolutionFound
(** a call of [client.pelias_search(addr, size=size)] *)
| GeocodeCall (key : string) (addr : value) (size : Z)
(** [print(f"Geocoding failed for {addr}: {e}")] *)
| GeocodingFailed (addr : value) (e : exn)
(** [writer.writeheader()] and [writer.writerow(row)]: the cells handed to
    the underlying [csv.writer] *)
| WriteHeader (fieldnames : list string)
| WriteRow (cells : list value)
(** [print(f"... Output written to {output_csv}")] *)
| OutputWritten (output_csv : string).

Record state (W : Type) := { world : W; log : list event }.
Arguments world {W} s.
Arguments log {W} s.

(** ** The monad of a running script *)

Definition M (W A : Type) : Type := state W -> result A * state W.

#[global] Instance M_ret {W} : MRet (M W) := fun A a s => (Ok a, s).

#[global] Instance M_bind {W} : MBind (M W) := fun A B k m s =>
  match m s with
  | (Ok a, s') => k a s'
  | (Raise e, s') => (Raise e, s')
  | (Diverge, s') => (Diverge, s')
  end.

Definition raise {W A} (e : exn) : M W A := fun s => (Raise e, s).

Definition lift {W A} (r : result A) : M W A := fun s => (r, s).

Definition emit {W} (e : event) : M W unit :=
  fun s => (Ok tt, {| world := world s; log := log s ++ [e] |}).

(** A call of a collaborator: it answers and moves the world on. *)
Definition call {W A} (f : W -> outcome A * W) : M W A :=
  fun s => let '(o, w) := f (world s) in (result_of o, {| world := w; log := log s |}).

(** [try: body / except Exception as e: handler e] *)
Definition try_except {W A} (body : M W A) (handler : exn -> M W A) : M W A :=
  fun s =>
    match body s with
    | (Raise e, s') => handler e s'
    | r => r
    end.

(** [for x in l: acc = body x acc] *)
Fixpoint for_each {W A B} (l : list A) (body : A -> B -> M W B) (acc : B) : M W B :=
  match l with
  | [] => mret acc
  | x :: l' => acc' ← body x acc; for_each l' body acc'
  end.

(** [[f x for x in l]] *)
Fixpoint comprehension {A B} (f : A -> result B) (l : list A) : result (list B) :=
  match l with
  | [] => Ok []
  | x :: l' =>
      match f x with
      | Ok y => match comprehension f l' with
                | Ok ys => Ok (y :: ys)
                | Raise e => Raise e
                | Diverge => Diverge
                end
      | Raise e => Raise e
      | Diverge => Diverge
      end
  end.

#[global] Instance result_ret : MRet result := fun A a => Ok a.

#[global] Instance result_bind : MBind result := fun A B k r =>
  match r with
  | Ok a => k a
  | Raise e => Raise e
  | Diverge => Diverge
  end.

(** ** [csv.DictReader] and [csv.DictWriter] *)

(** A row dictionary.  Its keys are the field names; the key [None] is
    DictReader's [restkey], under which the surplus cells of a long record
    are kept. *)
Abbreviation row := (gmap (option string) value).

(** One record turned into a dictionary: [dict(zip(fieldnames, r))], then the
    surplus cells under [restkey], or [restval = None] for the missing ones. *)
Definition DictReader_row (fieldnames r : list string) : row :=
  let d := foldl (fun (d : row) kv => <[Some kv.1 := VStr kv.2]> d) ∅ (zip fieldnames r) in
  let lf := length fieldnames in
  let lr := length r in
  if (lf <? lr)%nat then <[None := VList (VStr <$> drop lf r)]> d
  else if (lr <? lf)%nat then
    foldl (fun (d : row) key => <[Some key := VNone]> d) d (drop lr fieldnames)
  else d.

(** [reader.fieldnames]: the first record of the file, [None] on an empty file. *)
Definition DictReader_fieldnames (f : list (list string)) : option (list string) :=
  head f.

(** The rows a [for row in reader] loop sees: blank records are skipped. *)
Definition DictReader (f : list (list string)) : list row :=
  match f with
  | [] => []
  | fieldnames :: rest => DictReader_row fieldnames <$> filter (fun r => r ≠ []) rest
  end.

(** [DictWriter._dict_to_list] with the default [extrasaction="raise"] and
    [restval=""]. *)
Definition DictWriter_cells (fieldnames : list string) (rowdict : row)
  : result (list value) :=
  if decide (dom rowdict ⊆ list_to_set (Some <$> fieldnames))
  then Ok ((fun key => default (VStr "") (rowdict !! Some key)) <$> fieldnames)
  else Raise ValueError.

(** ** [main.py] *)

Record student := {
  student_id : Z;
  student_name : value;
  student_lat : pyfloat;
  student_lon : pyfloat
}.

Record bus := {
  bus_id : Z;
  bus_capacity : Z
}.

(** The dictionary [create_data_model] returns. *)
Record data_model := {
  distance_matrix : list (list Z);
  demands : list Z;
  vehicle_capacities : list Z;
  num_vehicles : Z;
  depot : Z;
  coords : list coord;
  students : list student;
  buses : list bus
}.

(** [openrouteservice.Client(key=ors_key)] *)
Record Client := { client_key : string }.

Section Scripts.
Context {py : Builtins} {W : Type} {services : Collaborators W}.

(** [row[key]] *)
Definition row_get (r : row) (key : string) : M W value :=
  match r !! Some key with
  | Some v => mret v
  | None => raise KeyError
  end.

(** The body of the loop of [load_students]. *)
Definition load_students_row (row : row) (students : list student)
  : M W (list student) :=
  lat ← row_get row "lat";
  missing ← (if negb (truthy lat) then mret true
             else lon ← row_get row "lon"; mret (negb (truthy lon)));
  if missing : bool then
    name ← row_get row "name";
    emit (Skipping name);;
    mret students
  else
    id ← row_get row "id";
    id ← lift (py_int id);
    name ← row_get row "name";
    lat ← row_get row "lat";
    lat ← lift (py_float lat);
    lon ← row_get row "lon";
    lon ← lift (py_float lon);
    mret (students ++ [{| student_id := id; student_name := name;
                          student_lat := lat; student_lon := lon |}]).

Definition load_students (csv_file : list (list string)) : M W (list student) :=
  for_each (DictReader csv_file) load_students_row [].

(** The body of the loop of [load_buses]. *)
Definition load_buses_row (row : row) (buses : list bus) : M W (list bus) :=
  id ← row_get row "id";
  id ← lift (py_int id);
  capacity ← row_get row "capacity";
  capacity ← lift (py_int capacity);
  mret (buses ++ [{| bus_id := id; bus_capacity := capacity |}]).

Definition load_buses (csv_file : list (list string)) : M W (list bus) :=
  for_each (DictReader csv_file) load_buses_row [].

Definition build_distance_matrix_ors (client : Client) (coords : list coord)
  : M W (list (list Z)) :=
  let req := {| locations := coords; profile := "driving-car";
                metrics := ["distance"%string]; units := "m" |} in
  emit (DistanceMatrixCall (client_key client) req);;
  matrix ← call (ors_distance_matrix (client_key client) req);
  distances ← lift (getitem matrix (VStr "distances"));
  lift (rows ← py_iter distances;
        comprehension (fun row => ds ← py_iter row; comprehension py_int ds) rows).

Definition create_data_model (students : list student) (buses : list bus)
    (school_coords : coord) (ors_key : string) : M W data_model :=
  let client := {| client_key := ors_key |} in
  let coords := [school_coords] ++ ((fun s => (student_lon s, student_lat s)) <$> students) in
  distance_matrix ← build_distance_matrix_ors client coords;
  mret {| distance_matrix := distance_matrix;
          demands := [0] ++ replicate (length students) 1;
          vehicle_capacities := bus_capacity <$> buses;
          num_vehicles := Z.of_nat (length buses);
          depot := 0;
          coords := coords;
          students := students;
          buses := buses |}.

(** The [while not routing.IsEnd(index)] loop of [print_solution].  It
    stops when [fuel] iterations did not reach an end index. *)
Fixpoint route_loop (fuel : nat) (data : data_model) (manager : RoutingIndexManager)
    (routing : RoutingModel) (solution : assignment) (v index : Z)
    (route_students : list value) (route_nodes : list Z) (route_dist : Z)
  : result (list value * list Z * Z) :=
  match fuel with
  | O => Diverge
  | S fuel' =>
      if IsEnd routing index then Ok (route_students, route_nodes, route_dist)
      else
        let node := IndexToNode manager index in
        let route_nodes := route_nodes ++ [node] in
        route_students ←
          (if negb (node =? 0) then
             s ← py_index (students data) (node - 1);
             Ok (route_students ++ [student_name s])
           else Ok route_students);
        let prev_index := index in
        let index := solution index in
        cost ← GetArcCostForVehicle routing prev_index index v;
        route_loop fuel' data manager routing solution v index
                   route_students route_nodes (route_dist + cost)
  end.

(** The body of the [for v in range(...)] loop of [print_solution]. *)
Definition print_solution_vehicle (fuel : nat) (data : data_model)
    (manager : RoutingIndexManager) (routing : RoutingModel)
    (solution : assignment) (v total_dist : Z) : M W Z :=
  '(route_students, route_nodes, route_dist) ←
    lift (route_loop fuel data manager routing solution v (Start routing v) [] [] 0);
  let route_nodes := route_nodes ++ [0] in
  (if (0 <? length route_students)%nat then
     b ← lift (py_index (buses data) v);
     emit (BusHeader (bus_id b) (bus_capacity b));;
     emit (AssignedStudents route_students);;
     cs ← lift (comprehension (fun n => py_index (coords data) n) route_nodes);
     emit (RouteCoords cs);;
     emit (RouteDistance route_dist)
   else mret tt);;
  mret (total_dist + route_dist).

Definition print_solution (fuel : nat) (data : data_model)
    (manager : RoutingIndexManager) (routing : RoutingModel)
    (solution : assignment) : M W unit :=
  total_dist ← for_each (seqZ 0 (num_vehicles data))
                 (print_solution_vehicle fuel data manager routing solution) 0;
  emit (TotalDistance total_dist).

(** [def distance_callback(from_index, to_index)] *)
Definition distance_callback (data : data_model) (manager : RoutingIndexManager)
    (from_index to_index : Z) : result Z :=
  let a := IndexToNode manager from_index in
  let b := IndexToNode manager to_index in
  r ← py_index (distance_matrix data) a;
  py_index r b.

(** [def demand_callback(from_index)] *)
Definition demand_callback (data : data_model) (manager : RoutingIndexManager)
    (from_index : Z) : result Z :=
  let node := IndexToNode manager from_index in
  py_index (demands data) node.

(** The routing model [optimize_with_ors] sets up before it solves. *)
Definition routing_of (data : data_model) : RoutingIndexManager * RoutingModel :=
  let manager := {| num_nodes := Z.of_nat (length (distance_matrix data));
                    manager_num_vehicles := num_vehicles data;
                    manager_depot := depot data |} in
  let routing := new_RoutingModel manager in
  let '(routing, transit_cb) :=
    RegisterTransitCallback routing (distance_callback data manager) in
  let routing := SetArcCostEvaluatorOfAllVehicles routing transit_cb in
  let '(routing, demand_cb) :=
    RegisterUnaryTransitCallback routing (demand_callback data manager) in
  let routing := AddDimensionWithVehicleCapacity
                   routing demand_cb 0 (vehicle_capacities data) true "Capacity" in
  (manager, routing).

(** The search parameters [optimize_with_ors] solves with. *)
Definition search_params : search_parameters :=
  let params := DefaultRoutingSearchParameters in
  let params := {| first_solution_strategy := PATH_CHEAPEST_ARC;
                   local_search_metaheuristic := local_search_metaheuristic params;
                   time_limit_seconds := time_limit_seconds params |} in
  let params := {| first_solution_strategy := first_solution_strategy params;
                   local_search_metaheuristic := GUIDED_LOCAL_SEARCH;
                   time_limit_seconds := time_limit_seconds params |} in
  {| first_solution_strategy := first_solution_strategy params;
     local_search_metaheuristic := local_search_metaheuristic params;
     time_limit_seconds := Some 10 |}.

(** [optimize_with_ors(students_csv, buses_csv, school_lat, school_lon,
    ors_key)]; the defaults of the keyword arguments are the caller's
    business.  [fuel] bounds each route walk of [print_solution]. *)
Definition optimize_with_ors (fuel : nat) (students_csv buses_csv : list (list string))
    (school_lat school_lon : pyfloat) (ors_key : string) : M W unit :=
  students ← load_students students_csv;
  buses ← load_buses buses_csv;
  let school_coords := (school_lon, school_lat) in
  data ← create_data_model students buses school_coords ors_key;
  let '(manager, routing) := routing_of data in
  let params := search_params in
  emit (SolveCall routing params);;
  solution ← call (fun w => let '(o, w') := SolveWithParameters routing params w in
                            (Returns o, w'));
  match solution with
  | Some solution => print_solution fuel data manager routing solution
  | None => emit NoSolutionFound
  end.
End Scripts.

(** ** [geocode_addresses.py] *)

Section Geocoding.
Context {W : Type} {services : Collaborators W}.

(** [row["lon"], row["lat"] = lon, lat] *)
Definition set_coords (r : row) (lon lat : value) : row :=
  <[Some "lat"%string := lat]> (<[Some "lon"%string := lon]> r).

(** The [try]/[except] statement of the loop body; it leaves the row with
    its two new fields. *)
Definition geocode_row (client : Client) (r : row) (addr : value) : M W row :=
  try_except
    (emit (GeocodeCall (client_key client) addr 1);;
     res ← call (ors_pelias_search (client_key client) addr 1);
     features ← lift (getitem res (VStr "features"));
     if truthy features then
       coords ← lift (features ← getitem res (VStr "features");
                      feature ← getitem features (VInt 0);
                      geometry ← getitem feature (VStr "geometry");
                      getitem geometry (VStr "coordinates"));
       lon ← lift (getitem coords (VInt 0));
       lat ← lift (getitem coords (VInt 1));
       mret (set_coords r lon lat)
     else mret (set_coords r (VStr "") (VStr "")))
    (fun e =>
       emit (GeocodingFailed addr e);;
       mret (set_coords r (VStr "") (VStr ""))).

(** The body of the loop of [geocode_addresses]. *)
Definition geocode_addresses_row (client : Client) (fieldnames : list string)
    (r : row) (_ : unit) : M W unit :=
  addr ← row_get r "address";
  r ← geocode_row client r addr;
  cells ← lift (DictWriter_cells fieldnames r);
  emit (WriteRow cells).

Definition geocode_addresses (input_csv : list (list string))
    (output_csv ors_key : string) : M W unit :=
  let client := {| client_key := ors_key |} in
  match DictReader_fieldnames input_csv with
  | None => raise TypeError
  | Some reader_fieldnames =>
      let fieldnames := reader_fieldnames ++ ["lat"; "lon"]%string in
      emit (WriteHeader fieldnames);;
      for_each (DictReader input_csv) (geocode_addresses_row client fieldnames) tt;;
      emit (OutputWritten output_csv)
  end.
End Geocoding.

(** ** Vocabulary of the specification *)

(** The value of a field of a row, [None] when the row has no such field. *)
Definition field (r : row) (key : string) : value := default VNone (r !! Some key).

(** A record is unresolved when its latitude or its longitude is empty. *)
Definition unresolved (r : row) : bool :=
  negb (truthy (field r "lat")) || negb (truthy (field r "lon")).

(** The warnings a file of student records gives rise to. *)
Definition skipped (rows : list row) : list event :=
  (fun r => Skipping (field r "name")) <$> filter (fun r => unresolved r = true) rows.

Definition total (l : list Z) : Z := foldr Z.add 0 l.

(** The cells a record of the input holds under the header's field names,
    as DictReader pads it. *)
Definition padded (fieldnames r : list string) : list value :=
  (VStr <$> r) ++ replicate (length fieldnames - length r) VNone.

(** An answer of the geocoder that locates nothing: an exception, or a
    result whose [features] are absent or empty. *)
Definition not_found (answer : outcome value) : bool :=
  match answer with
  | Returns res =>
      match getitem res (VStr "features") with
      | Ok features => negb (truthy features)
      | _ => true
      end
  | Throws _ => true
  end.

(** The cells written for a row and the geocoder's answer to its address:
    the row's fields followed by latitude and longitude, both empty when
    the answer located nothing. *)
Definition row_written (header : list string) (x : row * outcome value)
    (cells : list value) : Prop :=
  ∃ lon lat,
    cells = (fun key => default (VStr "") (set_coords x.1 lon lat !! Some key))
            <$> (header ++ ["lat"; "lon"]%string)
    ∧ (not_found x.2 = true → lon = VStr "" ∧ lat = VStr "").

(** The rows that [csv.writer] received. *)
Definition written (evs : list event) : list (list value) :=
  omap (fun e => match e with WriteRow cells => Some cells | _ => None end) evs.

(** The addresses the geocoder was asked for. *)
Definition geocoded (evs : list event) : list value :=
  omap (fun e => match e with GeocodeCall _ addr _ => Some addr | _ => None end) evs.

(** The travel profiles requested from the distance service. *)
Definition requested_profiles (evs : list event) : list string :=
  omap (fun e => match e with DistanceMatrixCall _ req => Some (profile req) | _ => None end) evs.

(** The time limits the solver was started with. *)
Definition time_limits (evs : list event) : list (option Z) :=
  omap (fun e => match e with SolveCall _ p => Some (time_limit_seconds p) | _ => None end) evs.

(** The searches that were started: the number of nodes and the capacity
    vectors of the routing model each one was given. *)
Definition searches (evs : list event) : list (Z * list (list Z)) :=
  omap (fun e => match e with
                 | SolveCall routing _ =>
                     Some (num_nodes (routing_manager routing),
                           dim_capacities <$> dimensions routing)
                 | _ => None
                 end) evs.

(** What the script shows on the console: every event but the service calls
    and the rows written to the output file. *)
Definition is_print (e : event) : bool :=
  match e with
  | DistanceMatrixCall _ _ | SolveCall _ _ | GeocodeCall _ _ _
  | WriteHeader _ | WriteRow _ => false
  | _ => true
  end.

Definition printed (evs : list event) : list event :=
  filter (fun e => is_print e = true) evs.

(** The configuration a run of [optimize_with_ors] works with, read off its
    service calls. *)
Definition configured (school_coords : coord) (ors_key : string) (e : event) : Prop :=
  match e with
  | DistanceMatrixCall key req =>
      key = ors_key ∧ head (locations req) = Some school_coords
      ∧ profile req = "driving-car"%string
  | SolveCall _ params => time_limit_seconds params = Some 10
  | _ => True
  end.

(** What can reach the log before the search starts: warnings about skipped
    records and the request for the distance matrix. *)
Definition before_search (e : event) : Prop :=
  match e with
  | Skipping _ | DistanceMatrixCall _ _ => True
  | _ => False
  end.

(** A script only ever appends to the log, and what it appends satisfies [P]. *)
Definition appends {W A} (P : event → Prop) (m : M W A) : Prop :=
  ∀ s, ∃ evs, log (m s).2 = log s ++ evs ∧ Forall P evs.

Section Vocabulary.
Context {py : Builtins} {W : Type} {services : Collaborators W}.

(** The student a resolved record stands for. *)
Definition student_of_row (r : row) : result student :=
  id ← py_int (field r "id");
  lat ← py_float (field r "lat");
  lon ← py_float (field r "lon");
  Ok {| student_id := id; student_name := field r "name";
        student_lat := lat; student_lon := lon |}.

(** The rows of an answer of the distance service. *)
Definition answer_rows (matrix : value) : result (list (list value)) :=
  distances ← getitem matrix (VStr "distances");
  rows ← py_iter distances;
  comprehension py_iter rows.

(** An entry that [int] converts. *)
Definition numeric (d : value) : bool :=
  match py_int d with Ok _ => true | _ => false end.

(** The indices of a vehicle's route, from [index] to the end index it
    reaches within [fuel] steps. *)
Fixpoint route_indices (fuel : nat) (routing : RoutingModel) (solution : assignment)
    (index : Z) : option (list Z) :=
  match fuel with
  | O => None
  | S fuel' =>
      if IsEnd routing index then Some [index]
      else (index ::.) <$> route_indices fuel' routing solution (solution index)
  end.

(** The sum of the directional arc costs between consecutive indices. *)
Fixpoint route_cost (data : data_model) (manager : RoutingIndexManager)
    (path : list Z) : result Z :=
  match path with
  | [] => Ok 0
  | i :: rest =>
      match rest with
      | [] => Ok 0
      | j :: _ =>
          c ← distance_callback data manager i j;
          d ← route_cost data manager rest;
          Ok (c + d)
      end
  end.

(** A data model whose matrix is square and as large as the list of
    coordinates, with an index manager that maps into it. *)
Record well_formed (data : data_model) (manager : RoutingIndexManager) : Prop := {
  wf_rows : Forall (fun r => length r = length (distance_matrix data))
                   (distance_matrix data);
  wf_students : S (length (students data)) = length (distance_matrix data);
  wf_coords : length (coords data) = length (distance_matrix data);
  wf_buses : num_vehicles data = Z.of_nat (length (buses data));
  wf_nodes : ∀ i, 0 ≤ IndexToNode manager i < Z.of_nat (length (distance_matrix data))
}.

(** What one vehicle adds to the report: nothing for a route without
    students, else four lines ending with the route's distance. *)
Definition vehicle_report (route_dist : Z) (evs : list event) : Prop :=
  evs = [] ∨
  ∃ id capacity names cs,
    evs = [BusHeader id capacity; AssignedStudents names; RouteCoords cs;
           RouteDistance route_dist].

(** What the geocoder answers to the successive calls of a batch. *)
Fixpoint geocoder_answers (key : string) (addrs : list value) (w : W)
  : list (outcome value) :=
  match addrs with
  | [] => []
  | addr :: rest =>
      let '(answer, w') := ors_pelias_search key addr 1 w in
      answer :: geocoder_answers key rest w'
  end.

(** The world after these calls. *)
Fixpoint geocoder_world (key : string) (addrs : list value) (w : W) : W :=
  match addrs with
  | [] => w
  | addr :: rest => geocoder_world key rest (ors_pelias_search key addr 1 w).2
  end.
End Vocabulary.

(** ** Further vocabulary *)

(** An event that is no call of the distance service and no search. *)
Definition no_service_call (e : event) : Prop :=
  match e with
  | DistanceMatrixCall _ _ | SolveCall _ _ => False
  | _ => True
  end.

(** An event other than the closing message of the geocoding script. *)
Definition not_closing (e : event) : Prop :=
  match e with
  | OutputWritten _ => False
  | _ => True
  end.

(** What [print_solution] adds to the report for vehicle [v]: nothing, or
    the header of bus [v] of the model followed by a list, not empty, of
    names of students of the model and then, unless the lookup of a
    coordinate raised, by a route that ends with the coordinate of node 0
    and by the route's distance. *)
Definition bus_report (data : data_model) (v : Z) (evs : list event) : Prop :=
  evs = [] ∨
  ∃ b names,
    py_index (buses data) v = Ok b
    ∧ names ≠ []
    ∧ Forall (fun n => ∃ st, st ∈ students data ∧ n = student_name st) names
    ∧ (evs = [BusHeader (bus_id b) (bus_capacity b); AssignedStudents names]
       ∨ ∃ cs c route_dist,
           py_index (coords data) 0 = Ok c ∧ last cs = Some c
           ∧ evs = [BusHeader (bus_id b) (bus_capacity b); AssignedStudents names;
                    RouteCoords cs; RouteDistance route_dist]).

(** What the [try] block of the geocoding loop reads from an answer of the
    geocoder: the pair [coords[0], coords[1]] of the first feature, two
    empty texts when [res["features"]] is falsy, or the exception that
    reaches the handler. *)
Definition coords_of_answer (answer : outcome value) : result (value * value) :=
  match answer with
  | Returns res =>
      features ← getitem res (VStr "features");
      if truthy features then
        features ← getitem res (VStr "features");
        feature ← getitem features (VInt 0);
        geometry ← getitem feature (VStr "geometry");
        coords ← getitem geometry (VStr "coordinates");
        lon ← getitem coords (VInt 0);
        lat ← getitem coords (VInt 1);
        Ok (lon, lat)
      else Ok (VStr "", VStr "")
  | Throws e => Raise e
  end.

(** The longitude and latitude a row is left with: those read from the
    answer, empty texts when reading them raised. *)
Definition geocoded_coords (answer : outcome value) : value * value :=
  match coords_of_answer answer with
  | Ok lonlat => lonlat
  | _ => (VStr "", VStr "")
  end.

(** The message of the [except] branch, when the [try] block raised. *)
Definition failure_message (addr : value) (answer : outcome value) : list event :=
  match coords_of_answer answer with
  | Raise e => [GeocodingFailed addr e]
  | _ => []
  end.

(** The cells [writer.writerow] hands on for a row whose two coordinate
    fields were set from an answer of the geocoder. *)
Definition cells_of_row (fieldnames : list string) (r : row) (answer : outcome value)
  : list value :=
  (fun key => default (VStr "")
                (set_coords r (geocoded_coords answer).1 (geocoded_coords answer).2
                 !! Some key)) <$> fieldnames.

(** What one turn of the geocoding loop adds to the log: the request, the
    failure message if any, and the row written. *)
Definition row_events (key : string) (fieldnames : list string) (r : row)
    (answer : outcome value) : list event :=
  GeocodeCall key (field r "address") 1
  :: failure_message (field r "address") answer
  ++ [WriteRow (cells_of_row fieldnames r answer)].

Section FurtherVocabulary.
Context {py : Builtins}.

(** The bus a record of the fleet file stands for. *)
Definition bus_of_row (r : row) : result bus :=
  id ← py_int (field r "id");
  capacity ← py_int (field r "capacity");
  Ok {| bus_id := id; bus_capacity := capacity |}.

(** The matrix an answer of the distance service is converted to. *)
Definition matrix_of_answer (answer : outcome value) : result (list (list Z)) :=
  match answer with
  | Returns matrix =>
      distances ← getitem matrix (VStr "distances");
      rows ← py_iter distances;
      comprehension (fun row => ds ← py_iter row; comprehension py_int ds) rows
  | Throws e => Raise e
  end.
End FurtherVocabulary.

(** ** A scripted outside world, for running the scripts on examples *)

Module Example.

Definition digit (c : ascii) : option Z :=
  let n := Z.of_N (N_of_ascii c) in
  if (48 <=? n) && (n <=? 57) then Some (n - 48) else None.

Fixpoint digits (s : string) (acc : Z) : option Z :=
  match s with
  | EmptyString => Some acc
  | String c s' => d ← digit c; digits s' (10 * acc + d)
  end.

(** Plain decimal literals with an optional sign: a part of what Python's
    [int] reads, enough for the examples. *)
Definition decimal (s : string) : option Z :=
  match s with
  | EmptyString => None
  | String "-" EmptyString | String "+" EmptyString => None
  | String "-" s' => Z.opp <$> digits s' 0
  | String "+" s' => digits s' 0
  | _ => digits s 0
  end.

#[local] Instance builtins : Builtins := {|
  int_of_str := decimal;
  float_of_str := fun s => (fun z => FFinite z 0) <$> decimal s;
  float_of_Z := fun z => if Z.abs z <=? 2 ^ 53 then Some (FFinite z 0) else None
|}.

(** What the services will answer. *)
Record script := {
  matrix_answer : outcome value;
  geocoder_answer : value -> outcome value;
  solver_answer : option assignment
}.

(** The index layout of OR-Tools for a single depot: node [i] has index
    [i]; the further vehicles' starts and then all vehicles' ends follow
    the nodes and are mapped to the depot. *)
#[local] Instance collaborators : Collaborators script := {|
  ors_distance_matrix := fun _ _ w => (matrix_answer w, w);
  ors_pelias_search := fun _ addr _ w => (geocoder_answer w addr, w);
  IndexToNode := fun m i =>
    if (0 <=? i) && (i <? num_nodes m) then i else manager_depot m;
  Start := fun r v =>
    let m := routing_manager r in
    if v =? 0 then manager_depot m else num_nodes m + v - 1;
  IsEnd := fun r i =>
    let m := routing_manager r in
    num_nodes m + manager_num_vehicles m - 1 <=? i;
  SolveWithParameters := fun _ _ w => (solver_answer w, w)
|}.

Definition start (w : script) : state script := {| world := w; log := [] |}.

(** Five students, the fourth without coordinates. *)
Definition students_csv : list (list string) :=
  [ ["id"; "name"; "lat"; "lon"];
    ["1"; "Asha"; "30"; "76"];
    ["2"; "Bilal"; "31"; "76"];
    ["3"; "Chen"; "31"; "77"];
    ["4"; "Dara"; ""; ""];
    ["5"; "Eli"; "32"; "77"] ]%string.

Definition two_students_csv : list (list string) :=
  [ ["id"; "name"; "lat"; "lon"];
    ["7"; "Gita"; "29"; "75"];
    ["8"; "Hari"; "28"; "75"] ]%string.

Definition buses_csv : list (list string) :=
  [ ["id"; "capacity"]; ["10"; "2"]; ["11"; "2"] ]%string.

Definition small_buses_csv : list (list string) :=
  [ ["id"; "capacity"]; ["10"; "3"] ]%string.

Definition km (z : Z) : value := VFloat (FFinite (1000 * z) 0).

(** A complete answer of the distance service for five locations. *)
Definition matrix5 : value :=
  VDict [("distances"%string, VList [
    VList [km 0; km 1; km 2; km 3; km 4];
    VList [km 1; km 0; km 1; km 2; km 3];
    VList [km 2; km 1; km 0; km 1; km 2];
    VList [km 3; km 2; km 1; km 0; km 1];
    VList [km 4; km 3; km 2; km 1; km 0] ])].

(** Bus 0 drives 0 -> 1 -> 2 -> depot, bus 1 drives 0 -> 3 -> 4 -> depot:
    with five nodes and two vehicles the second start has index 5 and the
    ends have indices 6 and 7. *)
Definition two_routes : assignment := fun i =>
  if i =? 0 then 1 else if i =? 1 then 2 else if i =? 2 then 6
  else if i =? 5 then 3 else if i =? 3 then 4 else if i =? 4 then 7 else i.

Definition solved : script :=
  {| matrix_answer := Returns matrix5;
     geocoder_answer := fun _ => Throws (ServiceError "offline");
     solver_answer := Some two_routes |}.

Definition unsolved : script :=
  {| matrix_answer := Returns matrix5;
     geocoder_answer := fun _ => Throws (ServiceError "offline");
     solver_answer := None |}.

(** The school, as (lon, lat). *)
Definition school : coord := (FFinite 76 0, FFinite 30 0).

(** The four students of [students_csv] that have coordinates. *)
Definition students4 : list student :=
  [ {| student_id := 1; student_name := VStr "Asha";
       student_lat := FFinite 30 0; student_lon := FFinite 76 0 |};
    {| student_id := 2; student_name := VStr "Bilal";
       student_lat := FFinite 31 0; student_lon := FFinite 76 0 |};
    {| student_id := 3; student_name := VStr "Chen";
       student_lat := FFinite 31 0; student_lon := FFinite 77 0 |};
    {| student_id := 5; student_name := VStr "Eli";
       student_lat := FFinite 32 0; student_lon := FFinite 77 0 |} ].

Definition two_buses : list bus :=
  [ {| bus_id := 10; bus_capacity := 2 |}; {| bus_id := 11; bus_capacity := 2 |} ].

Definition one_bus : list bus := [ {| bus_id := 10; bus_capacity := 3 |} ].

Definition request5 : matrix_request :=
  {| locations := [school; (FFinite 76 0, FFinite 30 0); (FFinite 76 0, FFinite 31 0);
                   (FFinite 77 0, FFinite 31 0); (FFinite 77 0, FFinite 32 0)];
     profile := "driving-car"; metrics := ["distance"%string]; units := "m" |}.

(** The data model of the four students and a fleet. *)
Definition data_of (fleet : list bus) : data_model :=
  {| distance_matrix :=
       [ [0; 1000; 2000; 3000; 4000];
         [1000; 0; 1000; 2000; 3000];
         [2000; 1000; 0; 1000; 2000];
         [3000; 2000; 1000; 0; 1000];
         [4000; 3000; 2000; 1000; 0] ];
     demands := [0; 1; 1; 1; 1];
     vehicle_capacities := bus_capacity <$> fleet;
     num_vehicles := Z.of_nat (length fleet);
     depot := 0;
     coords := locations request5;
     students := students4;
     buses := fleet |}.

(** The states a run on [students_csv] goes through before the search. *)
Definition loaded (w : script) : state script :=
  {| world := w; log := [Skipping (VStr "Dara")] |}.

Definition modelled (w : script) : state script :=
  {| world := w; log := [Skipping (VStr "Dara"); DistanceMatrixCall "k" request5] |}.

(** An answer of the distance service for two locations that lacks the
    entry from the second to itself. *)
Definition ragged : script :=
  {| matrix_answer :=
       Returns (VDict [("distances"%string,
                        VList [VList [km 0; km 5]; VList [km 7]])]);
     geocoder_answer := fun _ => Throws (ServiceError "offline");
     solver_answer := None |}.

(** An answer for two locations in which one distance is null. *)
Definition unroutable : script :=
  {| matrix_answer :=
       Returns (VDict [("distances"%string,
                        VList [VList [km 0; VNone]; VList [km 7; km 0]])]);
     geocoder_answer := fun _ => Throws (ServiceError "offline");
     solver_answer := None |}.

Definition located (lon lat : Z) : value :=
  VDict [("features"%string,
          VList [VDict [("geometry"%string,
                         VDict [("coordinates"%string,
                                 VList [VFloat (FFinite lon 0);
                                        VFloat (FFinite lat 0)])])]])].

(** A geocoder that knows one address, finds nothing for another and
    fails on every other request. *)
Definition geocoder (addr : value) : outcome value :=
  match addr with
  | VStr "12 Mall Road" => Returns (located 76 30)
  | VStr "nowhere" => Returns (VDict [("features"%string, VList [])])
  | _ => Throws (ServiceError "timeout")
  end.

Definition geocoding : script :=
  {| matrix_answer := Throws (ServiceError "offline");
     geocoder_answer := geocoder;
     solver_answer := None |}.

Definition addresses_header : list string := ["name"; "address"]%string.

(** Four records and a blank line; the last record has no address. *)
Definition addresses_records : list (list string) :=
  [ ["Asha"; "12 Mall Road"];
    ["Bilal"; "unreachable"];
    [];
    ["Chen"; "nowhere"];
    ["Dara"] ]%string.

(** A record with more cells than the header has columns: the address
    holds a comma and was not quoted. *)
Definition long_record_csv : list (list string) :=
  [ ["name"; "address"]; ["Bob"; "12 Main St"; "Springfield"] ]%string.

(** A students file whose second record has an id that is no number; the
    third has no coordinates. *)
Definition ill_typed_students_csv : list (list string) :=
  [ ["id"; "name"; "lat"; "lon"];
    ["1"; "Asha"; "30"; "76"];
    ["S2"; "Bilal"; "31"; "76"];
    ["3"; "Chen"; ""; ""] ]%string.

(** The rows of [matrix5]. *)
Definition rows5 : list (list value) :=
  [ [km 0; km 1; km 2; km 3; km 4];
    [km 1; km 0; km 1; km 2; km 3];
    [km 2; km 1; km 0; km 1; km 2];
    [km 3; km 2; km 1; km 0; km 1];
    [km 4; km 3; km 2; km 1; km 0] ].

(** An addresses file that was geocoded before. *)
Definition geocoded_header : list string := ["name"; "address"; "lat"; "lon"]%string.

Definition geocoded_records : list (list string) :=
  [ ["Asha"; "12 Mall Road"; "1"; "2"];
    ["Chen"; "nowhere"; "3"; "4"];
    ["Eli"; "unreachable"; "5"; "6"] ]%string.

End Example.

(** * Properties *)

(** ** Running a script step by step *)

Section Running.
Context {W : Type}.

Lemma run_bind_Ok {A B} (m : M W A) (k : A → M W B) s a s' :
  m s = (Ok a, s') → (m ≫= k) s = k a s'.
Proof. intros E. unfold mbind, M_bind. by rewrite E. Qed.

Lemma run_bind_Raise {A B} (m : M W A) (k : A → M W B) s e s' :
  m s = (Raise e, s') → (m ≫= k) s = (Raise e, s').
Proof. intros E. unfold mbind, M_bind. by rewrite E. Qed.

Lemma run_bind {A B} (m : M W A) (k : A → M W B) s :
  (m ≫= k) s
  = match m s with
    | (Ok a, s') => k a s'
    | (Raise e, s') => (Raise e, s')
    | (Diverge, s') => (Diverge, s')
    end.
Proof. reflexivity. Qed.

Lemma run_call {A} (f : W → outcome A * W) (s : state W) o w' :
  f (world s) = (o, w') → call f s = (result_of o, {| world := w'; log := log s |}).
Proof. intros E. unfold call. by rewrite E. Qed.

Lemma run_lift {A} (r : result A) (s : state W) : lift r s = (r, s).
Proof. reflexivity. Qed.

Lemma run_ret {A} (a : A) (s : state W) : (mret a : M W A) s = (Ok a, s).
Proof. reflexivity. Qed.

Lemma run_emit (e : event) (s : state W) :
  emit e s = (Ok tt, {| world := world s; log := log s ++ [e] |}).
Proof. reflexivity. Qed.

Lemma state_eta (s : state W) : {| world := world s; log := log s |} = s.
Proof. by destruct s. Qed.

Lemma row_get_field (r : row) key (s : state W) :
  is_Some (r !! Some key) → row_get r key s = (Ok (field r key), s).
Proof. intros [v Hv]. unfold row_get, field. by rewrite Hv. Qed.
End Running.

(** One step of a script: the first statement's outcome is known. *)
Tactic Notation "mstep" uconstr(E) :=
  (erewrite run_bind_Ok by (eapply E)); cbv beta iota.
Tactic Notation "mstep" uconstr(E) "in" hyp(H) :=
  (erewrite run_bind_Ok in H by (eapply E)); cbv beta iota in H.
Ltac mget Hkey :=
  (erewrite run_bind_Ok by (apply row_get_field, Hkey)); cbv beta iota.
Ltac mlift E :=
  (erewrite run_bind_Ok by (rewrite run_lift, E; reflexivity)); cbv beta iota.

(** Runs the statements whose outcome is determined. *)
Ltac run :=
  repeat first
    [ rewrite run_bind | rewrite run_lift | rewrite run_emit | rewrite run_ret
    | progress cbv beta iota
    | progress cbn [mbind result_bind world log fst snd] ].

(** ** Python sequences *)

Lemma py_index_Ok {A} (l : list A) (i : Z) :
  0 ≤ i < Z.of_nat (length l) → ∃ x, py_index l i = Ok x ∧ l !! Z.to_nat i = Some x.
Proof.
  intros Hi. unfold py_index. cbv zeta.
  rewrite (proj2 (Z.ltb_ge i 0)) by lia.
  rewrite (proj2 (Z.ltb_ge i 0)) by lia.
  rewrite (proj2 (Z.leb_gt _ _)) by lia. cbn.
  destruct (lookup_lt_is_Some_2 l (Z.to_nat i)) as [x Hx]; [lia|].
  rewrite Hx. eauto.
Qed.

Lemma comprehension_Ok {A B} (f : A → result B) (l : list A) :
  Forall (fun x => ∃ y, f x = Ok y) l → ∃ ys, comprehension f l = Ok ys.
Proof.
  induction 1 as [|x l [y Hy] _ [ys IH]]; simpl; [by eauto|].
  rewrite Hy, IH. eauto.
Qed.

(** ** What DictReader makes of a record *)

Lemma fst_zip_take {A B} (l : list A) (k : list B) :
  (zip l k).*1 = take (length k) l.
Proof.
  revert k. induction l as [|x l IH]; intros [|y k]; simpl; try done.
  by rewrite IH.
Qed.

Lemma dom_foldl_cells (l : list (string * string)) (d0 : row) :
  dom (foldl (fun (d : row) kv => <[Some kv.1 := VStr kv.2]> d) d0 l)
  = dom d0 ∪ list_to_set (Some <$> l.*1).
Proof.
  revert d0. induction l as [|[k v] l IH]; intros d0; simpl.
  - set_solver.
  - rewrite IH, dom_insert_L. set_solver.
Qed.

Lemma dom_foldl_restval (l : list string) (d0 : row) :
  dom (foldl (fun (d : row) key => <[Some key := VNone]> d) d0 l)
  = dom d0 ∪ list_to_set (Some <$> l).
Proof.
  revert d0. induction l as [|k l IH]; intros d0; simpl.
  - set_solver.
  - rewrite IH, dom_insert_L. set_solver.
Qed.

(** A record no longer than the header becomes a row with exactly the
    header's fields. *)
Lemma dom_DictReader_row (fieldnames r : list string) :
  (length r ≤ length fieldnames)%nat →
  dom (DictReader_row fieldnames r) = list_to_set (Some <$> fieldnames).
Proof.
  intros Hlen. unfold DictReader_row.
  destruct (Nat.ltb_spec (length fieldnames) (length r)) as [?|_]; [lia|].
  destruct (Nat.ltb_spec (length r) (length fieldnames)) as [Hlt|Hge].
  - rewrite dom_foldl_restval, dom_foldl_cells, dom_empty_L, fst_zip_take.
    rewrite (left_id_L ∅ (∪)), <- list_to_set_app_L, <- fmap_app, take_drop. done.
  - rewrite dom_foldl_cells, dom_empty_L, fst_zip_take, (left_id_L ∅ (∪)).
    rewrite take_ge; [done | lia].
Qed.

(** Every row has all the fields of the header. *)
Lemma DictReader_row_fields (fieldnames r : list string) (k : string) :
  k ∈ fieldnames → is_Some (DictReader_row fieldnames r !! Some k).
Proof.
  intros Hk. apply elem_of_dom. unfold DictReader_row.
  destruct (Nat.ltb_spec (length fieldnames) (length r)) as [Hlong|Hshort].
  - rewrite dom_insert_L, dom_foldl_cells, fst_zip_take.
    rewrite take_ge by lia. set_solver.
  - fold (DictReader_row fieldnames r).
    pose proof (dom_DictReader_row fieldnames r Hshort) as Hdom.
    unfold DictReader_row in Hdom.
    destruct (Nat.ltb_spec (length fieldnames) (length r)); [lia|].
    rewrite Hdom. set_solver.
Qed.

Lemma DictReader_fields (header : list string) (records : list (list string))
    (r : row) (k : string) :
  r ∈ DictReader (header :: records) → k ∈ header → is_Some (r !! Some k).
Proof.
  unfold DictReader. intros Hr Hk.
  apply list_elem_of_fmap in Hr as (raw & -> & _).
  by apply DictReader_row_fields.
Qed.

Lemma foldl_cells_other (l : list (string * string)) (d0 : row) (key : string) :
  key ∉ l.*1 →
  foldl (fun (d : row) kv => <[Some kv.1 := VStr kv.2]> d) d0 l !! Some key
  = d0 !! Some key.
Proof.
  revert d0. induction l as [|[k v] l IH]; intros d0 Hkey; [done|].
  cbn in *. rewrite IH by set_solver.
  apply lookup_insert_ne. set_solver.
Qed.

Lemma foldl_cells_lookup (l : list (string * string)) (d0 : row) (key c : string) :
  NoDup l.*1 → (key, c) ∈ l →
  foldl (fun (d : row) kv => <[Some kv.1 := VStr kv.2]> d) d0 l !! Some key
  = Some (VStr c).
Proof.
  revert d0. induction l as [|[k v] l IH]; intros d0 Hnd Hin.
  - by apply elem_of_nil in Hin.
  - cbn in *. apply NoDup_cons in Hnd as [Hk Hnd].
    apply elem_of_cons in Hin as [[= -> ->]|Hin].
    + rewrite foldl_cells_other by done. apply lookup_insert_eq.
    + by apply IH.
Qed.

Lemma foldl_restval_other (l : list string) (d0 : row) (key : string) :
  key ∉ l →
  foldl (fun (d : row) key => <[Some key := VNone]> d) d0 l !! Some key = d0 !! Some key.
Proof.
  revert d0. induction l as [|k l IH]; intros d0 Hkey; [done|].
  cbn. rewrite IH by set_solver. apply lookup_insert_ne. set_solver.
Qed.

Lemma foldl_restval_lookup (l : list string) (d0 : row) (key : string) :
  key ∈ l →
  foldl (fun (d : row) key => <[Some key := VNone]> d) d0 l !! Some key = Some VNone.
Proof.
  revert d0. induction l as [|k l IH]; intros d0 Hkey.
  - by apply elem_of_nil in Hkey.
  - cbn. destruct (decide (key ∈ l)) as [Hin|Hout].
    + by apply IH.
    + rewrite foldl_restval_other by done.
      apply elem_of_cons in Hkey as [->|?]; [|done]. apply lookup_insert_eq.
Qed.

(** The row holds each cell of the record under its field name, and [None]
    under the field names the record is too short for. *)
Lemma DictReader_row_lookup (fieldnames r : list string) (i : nat) (key : string) :
  NoDup fieldnames → (length r ≤ length fieldnames)%nat →
  fieldnames !! i = Some key →
  DictReader_row fieldnames r !! Some key
  = Some (match r !! i with Some c => VStr c | None => VNone end).
Proof.
  intros Hnd Hlen Hkey. unfold DictReader_row.
  destruct (Nat.ltb_spec (length fieldnames) (length r)) as [?|_]; [lia|].
  assert (Hzip : NoDup (zip fieldnames r).*1).
  { rewrite fst_zip_take. eapply sublist_NoDup; [exact Hnd | apply sublist_take]. }
  destruct (r !! i) as [c|] eqn:Hc.
  - assert (Hin : (key, c) ∈ zip fieldnames r).
    { apply list_elem_of_lookup. exists i. by apply lookup_zip_Some. }
    assert (Hout : key ∉ drop (length r) fieldnames).
    { intros Hd. apply list_elem_of_lookup in Hd as [j Hj].
      rewrite lookup_drop in Hj.
      apply lookup_lt_Some in Hc.
      pose proof (NoDup_lookup _ _ _ _ Hnd Hkey Hj). lia. }
    destruct (Nat.ltb_spec (length r) (length fieldnames)).
    + rewrite foldl_restval_other by done. by apply foldl_cells_lookup.
    + by apply foldl_cells_lookup.
  - apply lookup_ge_None in Hc.
    pose proof (lookup_lt_Some _ _ _ Hkey).
    destruct (Nat.ltb_spec (length r) (length fieldnames)); [|lia].
    apply foldl_restval_lookup, list_elem_of_lookup.
    exists (i - length r)%nat. rewrite lookup_drop. rewrite <- Hkey. f_equal. lia.
Qed.

Lemma DictReader_row_cells (fieldnames r : list string) :
  NoDup fieldnames → (length r ≤ length fieldnames)%nat →
  (fun key => default (VStr "") (DictReader_row fieldnames r !! Some key)) <$> fieldnames
  = padded fieldnames r.
Proof.
  intros Hnd Hlen. apply list_eq. intros i. rewrite list_lookup_fmap. unfold padded.
  destruct (fieldnames !! i) as [key|] eqn:Hkey; cbn.
  - rewrite (DictReader_row_lookup _ _ i key) by done. cbn.
    destruct (r !! i) as [c|] eqn:Hc.
    + rewrite lookup_app_l by (rewrite length_fmap; by eapply lookup_lt_Some).
      by rewrite list_lookup_fmap, Hc.
    + apply lookup_ge_None in Hc. pose proof (lookup_lt_Some _ _ _ Hkey).
      rewrite lookup_app_r by (rewrite length_fmap; lia).
      rewrite length_fmap. symmetry. apply lookup_replicate_2. lia.
  - apply lookup_ge_None in Hkey. symmetry. apply lookup_ge_None.
    rewrite length_app, length_fmap, length_replicate. lia.
Qed.

(** ** Loading the students *)

Section Loading.
Context {py : Builtins} {W : Type} {services : Collaborators W}.

(** A record with an empty coordinate is skipped with a warning. *)
Lemma load_students_row_unresolved (r : row) students (s : state W) :
  (∀ k, k ∈ ["id"; "name"; "lat"; "lon"]%string → is_Some (r !! Some k)) →
  unresolved r = true →
  load_students_row r students s
  = (Ok students,
     {| world := world s; log := log s ++ [Skipping (field r "name")] |}).
Proof.
  intros Hkeys Hun. unfold load_students_row.
  assert (Hlat := Hkeys "lat"%string ltac:(set_solver)).
  assert (Hlon := Hkeys "lon"%string ltac:(set_solver)).
  assert (Hname := Hkeys "name"%string ltac:(set_solver)).
  mget Hlat. unfold unresolved in Hun.
  destruct (negb (truthy (field r "lat"))) eqn:Elat.
  - mstep run_ret. by mget Hname.
  - simpl in Hun.
    erewrite run_bind_Ok; [|mget Hlon; apply run_ret].
    rewrite Hun. by mget Hname.
Qed.

(** A record with both coordinates becomes a student. *)
Lemma load_students_row_resolved (r : row) students st (s : state W) :
  (∀ k, k ∈ ["id"; "name"; "lat"; "lon"]%string → is_Some (r !! Some k)) →
  unresolved r = false →
  student_of_row r = Ok st →
  load_students_row r students s = (Ok (students ++ [st]), s).
Proof.
  intros Hkeys Hun Hst. unfold load_students_row.
  assert (Hlat := Hkeys "lat"%string ltac:(set_solver)).
  assert (Hlon := Hkeys "lon"%string ltac:(set_solver)).
  assert (Hname := Hkeys "name"%string ltac:(set_solver)).
  assert (Hid := Hkeys "id"%string ltac:(set_solver)).
  apply orb_false_elim in Hun as [Elat Elon].
  unfold student_of_row in Hst.
  destruct (py_int (field r "id")) as [id| |] eqn:Eid; try done.
  destruct (py_float (field r "lat")) as [lat| |] eqn:Eflat; try done.
  destruct (py_float (field r "lon")) as [lon| |] eqn:Eflon; try done.
  cbn in Hst. injection Hst as <-.
  mget Hlat. rewrite Elat.
  erewrite run_bind_Ok; [|mget Hlon; apply run_ret].
  rewrite Elon.
  mget Hid. mlift Eid. mget Hname. mget Hlat. mlift Eflat. mget Hlon. mlift Eflon.
  reflexivity.
Qed.

Lemma load_students_loop (rows : list row) :
  (∀ r, r ∈ rows →
     (∀ k, k ∈ ["id"; "name"; "lat"; "lon"]%string → is_Some (r !! Some k)) ∧
     (unresolved r = false → ∃ st, student_of_row r = Ok st)) →
  ∀ acc (s : state W), ∃ studs,
    for_each rows load_students_row acc s
    = (Ok (acc ++ studs), {| world := world s; log := log s ++ skipped rows |})
    ∧ Forall2 (fun r st => student_of_row r = Ok st)
              (filter (fun r => unresolved r = false) rows) studs.
Proof.
  induction rows as [|r rows IH]; intros Hrows acc s.
  - exists []. split; [|constructor]. simpl.
    by rewrite run_ret, !app_nil_r, state_eta.
  - destruct (Hrows r ltac:(left)) as [Hkeys Htyped].
    assert (Hrest : ∀ r', r' ∈ rows →
       (∀ k, k ∈ ["id"; "name"; "lat"; "lon"]%string → is_Some (r' !! Some k)) ∧
       (unresolved r' = false → ∃ st, student_of_row r' = Ok st)).
    { intros r' Hr'. apply Hrows. by right. }
    specialize (IH Hrest). cbn [for_each]. unfold skipped.
    destruct (unresolved r) eqn:Hun.
    + mstep (load_students_row_unresolved r acc s Hkeys Hun).
      destruct (IH acc {| world := world s;
                          log := log s ++ [Skipping (field r "name")] |})
        as (studs & Hrun & Hall).
      exists studs. rewrite Hrun. split.
      * rewrite filter_cons_True by done. cbn [world log fmap list_fmap].
        by rewrite <- app_assoc.
      * by rewrite filter_cons_False by (rewrite Hun; done).
    + destruct (Htyped eq_refl) as [st Hst].
      mstep (load_students_row_resolved r acc st s Hkeys Hun Hst).
      destruct (IH (acc ++ [st]) s) as (studs & Hrun & Hall).
      exists (st :: studs). rewrite Hrun, <- app_assoc. split.
      * by rewrite filter_cons_False by (rewrite Hun; done).
      * rewrite filter_cons_True by done. by constructor.
Qed.

(** What [create_data_model] returns, when the distance matrix is built. *)
Lemma create_data_model_Ok
    (studs : list student) (fleet : list bus) (school_coords : coord)
    (ors_key : string) (s s' : state W) (data : data_model) :
  create_data_model studs fleet school_coords ors_key s = (Ok data, s') →
  demands data = [0] ++ replicate (length studs) 1
  ∧ coords data
    = [school_coords] ++ ((fun s => (student_lon s, student_lat s)) <$> studs)
  ∧ students data = studs.
Proof.
  unfold create_data_model. intros Hrun.
  match type of Hrun with (?m ≫= _) _ = _ =>
    destruct (m s) as [[m'| |] s1] eqn:Hbuild end.
  - mstep Hbuild in Hrun. rewrite run_ret in Hrun. by injection Hrun as <- <-.
  - erewrite run_bind_Raise in Hrun by exact Hbuild. done.
  - rewrite run_bind, Hbuild in Hrun. done.
Qed.

(** C7, as the code has it.  From a file with the columns id, name, lat and
    lon whose resolved records are well typed, [load_students] returns one student for each
    record that has both coordinates, in the order of the file, and
    nothing else; for each record with an empty latitude or longitude it
    prints one warning with the record's name, and no other output.  A data
    model built from the loaded students has these students, and one
    coordinate and one demand for the depot and for each of them: a skipped
    record adds no node and no demand. *)
Theorem load_students_excludes_unresolved
    (header : list string) (records : list (list string)) (s : state W) :
  (∀ k, k ∈ ["id"; "name"; "lat"; "lon"]%string → k ∈ header) →
  (∀ r, r ∈ DictReader (header :: records) → unresolved r = false →
        ∃ st, student_of_row r = Ok st) →
  ∃ studs,
    load_students (header :: records) s
    = (Ok studs,
       {| world := world s;
          log := log s ++ skipped (DictReader (header :: records)) |})
    ∧ Forall2 (fun r st => student_of_row r = Ok st)
              (filter (fun r => unresolved r = false) (DictReader (header :: records)))
              studs
    ∧ ∀ buses school_coords ors_key (s1 s2 : state W) data,
        create_data_model studs buses school_coords ors_key s1 = (Ok data, s2) →
        students data = studs
        ∧ length (coords data) = S (length studs)
        ∧ length (demands data) = S (length studs).
Proof.
  intros Hcols Htyped. unfold load_students.
  destruct (load_students_loop (DictReader (header :: records))) with (acc := @nil student) (s := s)
    as (studs & Hrun & Hall).
  - intros r Hr. split; [|by apply Htyped].
    intros k Hk. eapply DictReader_fields; eauto.
  - exists studs. rewrite Hrun. split; [done|]. split; [done|].
    intros buses school_coords ors_key s1 s2 data Hdata.
    destruct (create_data_model_Ok _ _ _ _ _ _ _ Hdata) as (-> & -> & ->).
    cbn. by rewrite length_replicate, length_fmap.
Qed.

(** C9.  The demand vector of the data model has one entry for the depot
    and one for each loaded student: zero at index 0 and one at every
    other index. *)
Theorem create_data_model_demands
    (students : list student) (buses : list bus) (school_coords : coord)
    (ors_key : string) (s s' : state W) (data : data_model) :
  create_data_model students buses school_coords ors_key s = (Ok data, s') →
  length (demands data) = S (length students)
  ∧ length (coords data) = S (length students)
  ∧ ∀ node, 0 ≤ node < Z.of_nat (S (length students)) →
      py_index (demands data) node = Ok (if node =? 0 then 0 else 1).
Proof.
  intros Hrun.
  destruct (create_data_model_Ok _ _ _ _ _ _ _ Hrun) as (-> & -> & _).
  repeat split.
  - cbn. by rewrite length_replicate.
  - cbn. by rewrite length_fmap.
  - intros node Hnode.
    match goal with |- py_index ?l _ = _ =>
      destruct (py_index_Ok l node) as (x & -> & Hx) end.
    { cbn. rewrite length_replicate. lia. }
    f_equal. destruct (Z.eqb_spec node 0) as [->|Hne].
    + by injection Hx.
    + destruct (Z.to_nat node) as [|n] eqn:En; [lia|].
      cbn in Hx. apply lookup_replicate in Hx as [-> _]. done.
Qed.
End Loading.

(** ** Reporting a solution *)

Section Reporting.
Context {py : Builtins} {W : Type} {services : Collaborators W}.

Lemma distance_callback_Ok data manager i j :
  well_formed data manager → ∃ c, distance_callback data manager i j = Ok c.
Proof.
  intros Hwf. unfold distance_callback.
  destruct (py_index_Ok (distance_matrix data) (IndexToNode manager i))
    as (r & Hr & Hlook); [apply Hwf|].
  rewrite Hr. cbn.
  assert (Hlen : length r = length (distance_matrix data)).
  { destruct Hwf as [Hrows _ _ _ _]. rewrite Forall_forall in Hrows.
    apply Hrows. eapply list_elem_of_lookup_2, Hlook. }
  destruct (py_index_Ok r (IndexToNode manager j)) as (c & Hc & _).
  { rewrite Hlen. apply Hwf. }
  eauto.
Qed.

(** The arc cost of the routing model is the matrix entry. *)
Lemma GetArcCostForVehicle_routing_of data from to v :
  GetArcCostForVehicle (routing_of data).2 from to v
  = if from =? to then Ok 0 else distance_callback data (routing_of data).1 from to.
Proof. reflexivity. Qed.

(** A walk that does not move never reaches an end. *)
Lemma stuck_walk fuel routing solution index :
  IsEnd routing index = false → solution index = index →
  route_indices fuel routing solution index = None.
Proof.
  intros Hend Heq. induction fuel as [|fuel IH]; [done|].
  simpl. by rewrite Hend, Heq, IH.
Qed.

Lemma no_self_arc fuel routing solution index path :
  IsEnd routing index = false →
  route_indices fuel routing solution (solution index) = Some path →
  solution index ≠ index.
Proof.
  intros Hend Hpath Heq. rewrite Heq in Hpath.
  by rewrite stuck_walk in Hpath.
Qed.

Lemma route_indices_head fuel routing solution index path :
  route_indices fuel routing solution index = Some path →
  ∃ tl, path = index :: tl.
Proof.
  destruct fuel; [done|]. simpl.
  destruct (IsEnd routing index).
  - intros [= <-]. eauto.
  - destruct (route_indices fuel routing solution (solution index)); [|done].
    intros [= <-]. eauto.
Qed.

(** The loop of [print_solution] walks the route, collects the students'
    names and the nodes on its way, and adds up the arcs' costs. *)
Lemma route_loop_spec data v fuel :
  let manager := (routing_of data).1 in
  let routing := (routing_of data).2 in
  well_formed data manager →
  ∀ solution index path route_students route_nodes route_dist,
  route_indices fuel routing solution index = Some path →
  ∃ names d,
    route_cost data manager path = Ok d ∧
    route_loop fuel data manager routing solution v index
               route_students route_nodes route_dist
    = Ok (route_students ++ names,
          route_nodes ++ (IndexToNode manager <$> removelast path),
          route_dist + d).
Proof.
  intros manager routing Hwf solution.
  induction fuel as [|fuel IH]; intros index path studs nodes dist Hpath; [done|].
  simpl in Hpath. cbn [route_loop].
  destruct (IsEnd routing index) eqn:Hend.
  - injection Hpath as <-. exists [], 0. simpl.
    by rewrite !app_nil_r, Z.add_0_r.
  - destruct (route_indices fuel routing solution (solution index)) as [rest|] eqn:Hrest;
      [|done].
    injection Hpath as <-.
    assert (Hne : solution index ≠ index) by (eapply no_self_arc; eauto).
    destruct (distance_callback_Ok data manager index (solution index) Hwf) as [c Hc].
    assert (Hcost : GetArcCostForVehicle routing index (solution index) v = Ok c).
    { unfold routing. rewrite GetArcCostForVehicle_routing_of.
      destruct (Z.eqb_spec index (solution index)); [congruence | done]. }
    destruct (route_indices_head _ _ _ _ _ Hrest) as [tl ->].
    assert (Hstud : ∃ names',
      (if negb (IndexToNode manager index =? 0)
       then s ← py_index (students data) (IndexToNode manager index - 1);
            Ok (studs ++ [student_name s])
       else Ok studs) = Ok (studs ++ names')).
    { destruct (Z.eqb_spec (IndexToNode manager index) 0) as [E|E]; simpl.
      - exists []. by rewrite app_nil_r.
      - destruct (py_index_Ok (students data) (IndexToNode manager index - 1))
          as (s & Hs & _).
        { pose proof (wf_nodes _ _ Hwf index). pose proof (wf_students _ _ Hwf). lia. }
        rewrite Hs. cbn. eauto. }
    destruct Hstud as [names' Hstud].
    destruct (IH (solution index) (solution index :: tl) (studs ++ names')
                 (nodes ++ [IndexToNode manager index]) (dist + c) Hrest)
      as (names & d & Hd & Hloop).
    exists (names' ++ names), (c + d). split.
    + change (route_cost data manager (index :: solution index :: tl))
        with (c ← distance_callback data manager index (solution index);
              d ← route_cost data manager (solution index :: tl);
              Ok (c + d)).
      by rewrite Hc, Hd.
    + rewrite Hstud. cbn [mbind result_bind]. rewrite Hcost.
      cbn [mbind result_bind]. rewrite Hloop.
      rewrite <- !app_assoc. cbn. by rewrite Z.add_assoc.
Qed.

(** One vehicle's part of the report. *)
Lemma print_solution_vehicle_spec data fuel solution v path total_dist (s : state W) :
  let manager := (routing_of data).1 in
  let routing := (routing_of data).2 in
  well_formed data manager →
  0 ≤ v < num_vehicles data →
  route_indices fuel routing solution (Start routing v) = Some path →
  ∃ d evs,
    route_cost data manager path = Ok d ∧ vehicle_report d evs ∧
    print_solution_vehicle fuel data manager routing solution v total_dist s
    = (Ok (total_dist + d), {| world := world s; log := log s ++ evs |}).
Proof.
  intros manager routing Hwf Hv Hpath.
  destruct (route_loop_spec data v fuel Hwf solution _ _ [] [] 0 Hpath)
    as (names & d & Hd & Hloop).
  fold manager routing in Hloop. cbn [app] in Hloop. rewrite Z.add_0_l in Hloop.
  exists d. unfold print_solution_vehicle. mlift Hloop.
  destruct (0 <? length names)%nat eqn:Hnames.
  - destruct (py_index_Ok (buses data) v) as (b & Hb & _).
    { rewrite <- (wf_buses _ _ Hwf). done. }
    destruct (comprehension_Ok (fun n => py_index (coords data) n)
                ((IndexToNode manager <$> removelast path) ++ [0])) as [cs Hcs].
    { apply Forall_app. split.
      - apply Forall_fmap, Forall_forall. intros i _.
        destruct (py_index_Ok (coords data) (IndexToNode manager i)) as (x & Hx & _);
          [rewrite (wf_coords _ _ Hwf); apply Hwf | eauto].
      - constructor; [|constructor].
        destruct (py_index_Ok (coords data) 0) as (x & Hx & _); [|by eauto].
        rewrite (wf_coords _ _ Hwf), <- (wf_students _ _ Hwf). lia. }
    exists [BusHeader (bus_id b) (bus_capacity b); AssignedStudents names;
            RouteCoords cs; RouteDistance d].
    split; [done|]. split; [right; by eauto 10|].
    erewrite run_bind_Ok; [by rewrite run_ret|].
    mlift Hb. mstep run_emit. mstep run_emit. mlift Hcs. mstep run_emit.
    rewrite run_emit. cbn [world log]. by rewrite <- !app_assoc.
  - exists []. split; [done|]. split; [by left|].
    mstep run_ret. by rewrite run_ret, app_nil_r, state_eta.
Qed.

Lemma print_solution_loop data fuel solution vs routes :
  let manager := (routing_of data).1 in
  let routing := (routing_of data).2 in
  well_formed data manager →
  Forall (fun v => 0 ≤ v < num_vehicles data) vs →
  Forall2 (fun v path => route_indices fuel routing solution (Start routing v) = Some path)
          vs routes →
  ∀ total_dist (s : state W), ∃ dists reports,
    Forall2 (fun path d => route_cost data manager path = Ok d) routes dists
    ∧ Forall2 vehicle_report dists reports
    ∧ for_each vs (print_solution_vehicle fuel data manager routing solution) total_dist s
      = (Ok (total_dist + total dists),
         {| world := world s; log := log s ++ concat reports |}).
Proof.
  intros manager routing Hwf Hvs Hroutes.
  induction Hroutes as [|v path vs routes Hpath _ IH]; intros total_dist s.
  - exists [], []. repeat split; try constructor. cbn.
    by rewrite run_ret, Z.add_0_r, app_nil_r, state_eta.
  - apply Forall_cons in Hvs as [Hv Hvs].
    destruct (print_solution_vehicle_spec data fuel solution v path total_dist s
                Hwf Hv Hpath) as (d & evs & Hd & Hrep & Hrun).
    destruct (IH Hvs (total_dist + d) {| world := world s; log := log s ++ evs |})
      as (dists & reports & Hdists & Hreps & Hloop).
    exists (d :: dists), (evs :: reports).
    split; [by constructor|]. split; [by constructor|].
    cbn [for_each]. mstep Hrun. fold manager routing. rewrite Hloop.
    cbn [world log total foldr concat]. by rewrite Z.add_assoc, <- app_assoc.
Qed.

(** C4.  For a well-formed data model and a solution whose routes all
    reach their end, [print_solution] completes, and the total it reports
    is the sum, over all vehicles including those that serve no student,
    of the routes' distances, each the sum of the matrix entries between
    the consecutive stops of the route; the distance printed for a vehicle
    that serves students is that same route distance. *)
Theorem print_solution_total_is_sum_of_routes
    (fuel : nat) (data : data_model) (solution : assignment)
    (routes : list (list Z)) (s : state W) :
  let manager := (routing_of data).1 in
  let routing := (routing_of data).2 in
  well_formed data manager →
  Forall2 (fun v path => route_indices fuel routing solution (Start routing v) = Some path)
          (seqZ 0 (num_vehicles data)) routes →
  ∃ dists reports,
    Forall2 (fun path d => route_cost data manager path = Ok d) routes dists
    ∧ Forall2 vehicle_report dists reports
    ∧ print_solution fuel data manager routing solution s
      = (Ok tt,
         {| world := world s;
            log := log s ++ concat reports ++ [TotalDistance (total dists)] |}).
Proof.
  intros manager routing Hwf Hroutes.
  destruct (print_solution_loop data fuel solution (seqZ 0 (num_vehicles data)) routes Hwf)
    with (total_dist := 0) (s := s)
    as (dists & reports & Hdists & Hreps & Hloop); [|done|].
  { apply Forall_forall. intros v Hv. apply elem_of_seqZ in Hv. lia. }
  exists dists, reports. split; [done|]. split; [done|].
  unfold print_solution. fold manager routing. mstep Hloop.
  rewrite run_emit. cbn [world log]. by rewrite <- app_assoc.
Qed.
End Reporting.

(** ** What a script adds to the log *)

Section Logging.
Context {W : Type}.
Implicit Types P : event → Prop.

Lemma appends_ret {A} P (a : A) : appends (W := W) P (mret a).
Proof. intros s. exists []. by rewrite app_nil_r. Qed.

Lemma appends_raise {A} P e : appends (W := W) (A := A) P (raise e).
Proof. intros s. exists []. by rewrite app_nil_r. Qed.

Lemma appends_lift {A} P (r : result A) : appends (W := W) P (lift r).
Proof. intros s. exists []. by rewrite app_nil_r. Qed.

Lemma appends_call {A} P (f : W → outcome A * W) : appends P (call f).
Proof.
  intros s. exists []. unfold call. destruct (f (world s)). by rewrite app_nil_r.
Qed.

Lemma appends_emit P e : P e → appends (W := W) P (emit e).
Proof. intros He s. exists [e]. split; [done | by constructor]. Qed.

Lemma appends_bind {A B} P (m : M W A) (k : A → M W B) :
  appends P m → (∀ a, appends P (k a)) → appends P (m ≫= k).
Proof.
  intros Hm Hk s. destruct (Hm s) as (evs & Hlog & Hevs).
  unfold mbind, M_bind. destruct (m s) as [[a|e|] s1]; cbn [snd] in *.
  - destruct (Hk a s1) as (evs' & Hlog' & Hevs').
    exists (evs ++ evs'). split; [|by apply Forall_app].
    by rewrite Hlog', Hlog, app_assoc.
  - eauto.
  - eauto.
Qed.

Lemma appends_try_except {A} P (body : M W A) handler :
  appends P body → (∀ e, appends P (handler e)) → appends P (try_except body handler).
Proof.
  intros Hm Hk s. destruct (Hm s) as (evs & Hlog & Hevs).
  unfold try_except. destruct (body s) as [[a|e|] s1]; cbn [snd] in *; eauto.
  destruct (Hk e s1) as (evs' & Hlog' & Hevs').
  exists (evs ++ evs'). split; [|by apply Forall_app].
  by rewrite Hlog', Hlog, app_assoc.
Qed.

Lemma appends_for_each {A B} P (l : list A) (body : A → B → M W B) acc :
  (∀ x acc, appends P (body x acc)) → appends P (for_each l body acc).
Proof.
  intros Hbody. revert acc. induction l as [|x l IH]; intros acc; simpl.
  - apply appends_ret.
  - apply appends_bind; auto.
Qed.

Lemma appends_row_get P (r : row) key : appends (W := W) P (row_get r key).
Proof.
  unfold row_get. destruct (r !! Some key); [apply appends_ret | apply appends_raise].
Qed.

(** The log of a finished step, from what the step appends. *)
Lemma appends_run {A} P (m : M W A) s r s' :
  appends P m → m s = (r, s') → ∃ evs, log s' = log s ++ evs ∧ Forall P evs.
Proof. intros Hm Hrun. specialize (Hm s). by rewrite Hrun in Hm. Qed.
End Logging.

(** Splits a script into its statements and accounts for each one's events. *)
Ltac appends_step :=
  first
    [ apply appends_ret | apply appends_raise | apply appends_lift
    | apply appends_call | apply appends_row_get
    | apply appends_emit
    | apply appends_bind; [|intros]
    | apply appends_for_each; intros
    | apply appends_try_except; [|intros]
    | match goal with
      | |- appends _ (if ?b then _ else _) => destruct b
      | |- appends _ (match ?x with _ => _ end) => destruct x
      end ].

(** ** The optimisation run *)

Section Optimizing.
Context {py : Builtins} {W : Type} {services : Collaborators W}.

Lemma appends_load_students P csv_file :
  (∀ name, P (Skipping name)) → appends (W := W) P (load_students csv_file).
Proof.
  intros HP. unfold load_students, load_students_row.
  repeat appends_step. apply HP.
Qed.

Lemma appends_load_buses P csv_file : appends (W := W) P (load_buses csv_file).
Proof. unfold load_buses, load_buses_row. repeat appends_step. Qed.

Lemma appends_build_distance_matrix_ors P client coords :
  P (DistanceMatrixCall (client_key client)
       {| locations := coords; profile := "driving-car";
          metrics := ["distance"%string]; units := "m" |}) →
  appends (W := W) P (build_distance_matrix_ors client coords).
Proof. intros HP. unfold build_distance_matrix_ors. repeat appends_step. apply HP. Qed.

Lemma appends_create_data_model P students buses school_coords ors_key :
  (∀ req, head (locations req) = Some school_coords →
          profile req = "driving-car"%string →
          P (DistanceMatrixCall ors_key req)) →
  appends (W := W) P (create_data_model students buses school_coords ors_key).
Proof.
  intros HP. unfold create_data_model.
  appends_step; [|appends_step].
  apply appends_build_distance_matrix_ors. by apply HP.
Qed.

Lemma appends_print_solution P fuel data manager routing solution :
  (∀ e, is_print e = true → P e) →
  appends (W := W) P (print_solution fuel data manager routing solution).
Proof.
  intros HP. unfold print_solution, print_solution_vehicle.
  repeat appends_step; by apply HP.
Qed.

(** The part of [optimize_with_ors] that follows the data model. *)
Lemma optimize_with_ors_from_data fuel students_csv buses_csv school_lat school_lon
    ors_key (s s1 s2 s3 : state W) students buses data :
  load_students students_csv s = (Ok students, s1) →
  load_buses buses_csv s1 = (Ok buses, s2) →
  create_data_model students buses (school_lon, school_lat) ors_key s2 = (Ok data, s3) →
  let manager := (routing_of data).1 in
  let routing := (routing_of data).2 in
  optimize_with_ors fuel students_csv buses_csv school_lat school_lon ors_key s
  = let s4 := {| world := (SolveWithParameters routing search_params (world s3)).2;
                 log := log s3 ++ [SolveCall routing search_params] |} in
    match (SolveWithParameters routing search_params (world s3)).1 with
    | Some solution => print_solution fuel data manager routing solution s4
    | None => emit NoSolutionFound s4
    end.
Proof.
  intros Hstudents Hbuses Hdata manager routing. unfold optimize_with_ors.
  mstep Hstudents. mstep Hbuses. mstep Hdata.
  change (routing_of data) with (manager, routing). cbv beta iota.
  mstep run_emit.
  rewrite run_bind. unfold call. cbn [world log].
  by destruct (SolveWithParameters routing search_params (world s3)) as [[solution|] w'].
Qed.

(** C1, as the code has it.  No comparison of total demand with total
    capacity precedes the search: once the two files are loaded and the
    distance matrix is built, the solver is called, whatever the demands
    and the capacities are, and before that call nothing but the warnings
    about skipped records was printed.  When the solver finds nothing, the
    run ends with the message that no solution was found and reports no
    route. *)
Theorem search_runs_without_capacity_check
    (fuel : nat) (students_csv buses_csv : list (list string))
    (school_lat school_lon : pyfloat) (ors_key : string)
    (s s1 s2 s3 : state W) (students : list student) (buses : list bus)
    (data : data_model) :
  load_students students_csv s = (Ok students, s1) →
  load_buses buses_csv s1 = (Ok buses, s2) →
  create_data_model students buses (school_lon, school_lat) ors_key s2 = (Ok data, s3) →
  let routing := (routing_of data).2 in
  let run := optimize_with_ors fuel students_csv buses_csv school_lat school_lon
                               ors_key s in
  ∃ before after,
    log run.2 = log s ++ before ++ SolveCall routing search_params :: after
    ∧ Forall before_search before
    ∧ ((SolveWithParameters routing search_params (world s3)).1 = None →
       run.1 = Ok tt ∧ after = [NoSolutionFound]).
Proof.
  intros Hstudents Hbuses Hdata routing run.
  destruct (appends_run before_search _ _ _ _
              (appends_load_students _ students_csv (fun _ => I)) Hstudents)
    as (evs1 & Hlog1 & Hevs1).
  destruct (appends_run before_search _ _ _ _
              (appends_load_buses _ buses_csv) Hbuses)
    as (evs2 & Hlog2 & Hevs2).
  destruct (appends_run before_search _ _ _ _
              (appends_create_data_model _ students buses _ ors_key
                 (fun _ _ _ => I)) Hdata)
    as (evs3 & Hlog3 & Hevs3).
  assert (Hlog : log s3 = log s ++ (evs1 ++ evs2 ++ evs3)).
  { by rewrite Hlog3, Hlog2, Hlog1, <- !app_assoc. }
  unfold run.
  rewrite (optimize_with_ors_from_data _ _ _ _ _ _ _ _ _ _ _ _ _
             Hstudents Hbuses Hdata).
  fold routing. cbv zeta.
  destruct (SolveWithParameters routing search_params (world s3)) as [[solution|] w'];
    cbn [fst snd].
  - destruct (appends_print_solution (fun _ => True) fuel data (routing_of data).1
                routing solution (fun _ _ => I)
                {| world := w'; log := log s3 ++ [SolveCall routing search_params] |})
      as (after & Hafter & _).
    exists (evs1 ++ evs2 ++ evs3), after. rewrite Hafter. cbn [log].
    rewrite Hlog, <- !app_assoc. split; [done|]. split; [|done].
    repeat (apply Forall_app; split); done.
  - exists (evs1 ++ evs2 ++ evs3), [NoSolutionFound]. rewrite run_emit. cbn [fst snd log].
    rewrite Hlog, <- !app_assoc. split; [done|]. split; [|done].
    repeat (apply Forall_app; split); done.
Qed.

(** C2, as the code has it.  When the solver returns no solution the run
    ends normally after printing the one message that no solution was
    found.  The message is the same for every data model: no part of it
    depends on whether the capacities could have held the demand. *)
Theorem no_solution_is_reported_uniformly
    (fuel : nat) (students_csv buses_csv : list (list string))
    (school_lat school_lon : pyfloat) (ors_key : string)
    (s s1 s2 s3 : state W) (students : list student) (buses : list bus)
    (data : data_model) (w' : W) :
  load_students students_csv s = (Ok students, s1) →
  load_buses buses_csv s1 = (Ok buses, s2) →
  create_data_model students buses (school_lon, school_lat) ors_key s2 = (Ok data, s3) →
  SolveWithParameters (routing_of data).2 search_params (world s3) = (None, w') →
  optimize_with_ors fuel students_csv buses_csv school_lat school_lon ors_key s
  = (Ok tt,
     {| world := w';
        log := log s3 ++ [SolveCall (routing_of data).2 search_params;
                          NoSolutionFound] |}).
Proof.
  intros Hstudents Hbuses Hdata Hsolve.
  rewrite (optimize_with_ors_from_data _ _ _ _ _ _ _ _ _ _ _ _ _
             Hstudents Hbuses Hdata).
  cbv zeta. rewrite Hsolve. cbn [fst snd]. rewrite run_emit. cbn [world log].
  by rewrite <- app_assoc.
Qed.

(** C6, as the code has it.  The school's coordinate and the service key
    are arguments of [optimize_with_ors] and reach the distance service as
    given; the travel profile of every distance request is the constant
    "driving-car" and the time limit of every search is the constant 10,
    whatever the arguments are. *)
Theorem optimize_with_ors_configuration
    (fuel : nat) (students_csv buses_csv : list (list string))
    (school_lat school_lon : pyfloat) (ors_key : string) (s : state W) :
  ∃ evs,
    log (optimize_with_ors fuel students_csv buses_csv school_lat school_lon
                           ors_key s).2 = log s ++ evs
    ∧ Forall (configured (school_lon, school_lat) ors_key) evs.
Proof.
  revert s. change (appends (configured (school_lon, school_lat) ors_key)
    (optimize_with_ors fuel students_csv buses_csv school_lat school_lon ors_key)).
  unfold optimize_with_ors.
  apply appends_bind; [by apply appends_load_students | intros students].
  apply appends_bind; [by apply appends_load_buses | intros buses].
  apply appends_bind; [by apply appends_create_data_model | intros data].
  destruct (routing_of data) as [manager routing].
  apply appends_bind; [by apply appends_emit | intros _].
  apply appends_bind; [apply appends_call | intros [solution|]].
  - apply appends_print_solution. by intros [].
  - by apply appends_emit.
Qed.
End Optimizing.

(** ** Building the distance matrix *)

Section Matrix.
Context {py : Builtins} {W : Type} {services : Collaborators W}.

Lemma py_int_numeric d :
  if numeric d then ∃ z, py_int d = Ok z else ∃ e, py_int d = Raise e.
Proof.
  unfold numeric.
  destruct d as [|b|z|[m e|neg|]|s|l|d]; cbn; eauto.
  destruct (int_of_str s); eauto.
Qed.

(** A row converts as a whole or not at all. *)
Lemma convert_row ds :
  if forallb numeric ds
  then ∃ zs, comprehension py_int ds = Ok zs
             ∧ Forall2 (fun d z => py_int d = Ok z) ds zs
  else ∃ e, comprehension py_int ds = Raise e.
Proof.
  induction ds as [|d ds IH]; cbn [forallb comprehension].
  - exists []. split; [done | constructor].
  - pose proof (py_int_numeric d) as Hd.
    destruct (numeric d); cbn [andb].
    + destruct Hd as [z Hz]. rewrite Hz.
      destruct (forallb numeric ds).
      * destruct IH as (zs & -> & Hzs). exists (z :: zs). split; [done|by constructor].
      * destruct IH as [e ->]. eauto.
    + destruct Hd as [e ->]. eauto.
Qed.

Lemma convert_rows (rows : list value) :
  match comprehension py_iter rows with
  | Ok rs =>
      if forallb (forallb numeric) rs
      then ∃ m, comprehension (fun row => ds ← py_iter row; comprehension py_int ds) rows
                = Ok m
                ∧ Forall2 (Forall2 (fun d z => py_int d = Ok z)) rs m
      else ∃ e, comprehension (fun row => ds ← py_iter row; comprehension py_int ds) rows
                = Raise e
  | Raise _ =>
      ∃ e, comprehension (fun row => ds ← py_iter row; comprehension py_int ds) rows
           = Raise e
  | Diverge => False
  end.
Proof.
  induction rows as [|row rows IH]; cbn [comprehension].
  - exists []. split; [done | constructor].
  - destruct (py_iter row) as [ds|e|] eqn:Hrow; cbn [mbind result_bind].
    + pose proof (convert_row ds) as Hds.
      destruct (comprehension py_iter rows) as [rs|e|]; cbn [forallb].
      * destruct (forallb numeric ds); cbn [andb].
        -- destruct Hds as (zs & -> & Hzs).
           destruct (forallb (forallb numeric) rs).
           ++ destruct IH as (m & -> & Hm). exists (zs :: m).
              split; [done | by constructor].
           ++ destruct IH as [e ->]. eauto.
        -- destruct Hds as [e ->]. eauto.
      * destruct (forallb numeric ds).
        -- destruct Hds as (zs & -> & _). destruct IH as [e' ->]. eauto.
        -- destruct Hds as [e' ->]. eauto.
      * done.
    + eauto.
    + by destruct row as [| | |[]| | |].
Qed.

(** C5, as the code has it.  The matrix is built from the answer of the
    distance service entry by entry and as a whole: when the service
    raises, or its answer has no iterable [distances], or a row that is no
    sequence, or any entry that [int] does not convert (a null, a text
    that is no number, a not-a-number), the build raises and returns no
    matrix; otherwise it returns the conversion of every entry, row by
    row, in the shape of the answer, which is not compared with the list
    of coordinates. *)
Theorem build_distance_matrix_ors_all_or_nothing
    (client : Client) (coords : list coord) (s : state W)
    (answer : outcome value) (w' : W) :
  ors_distance_matrix (client_key client)
    {| locations := coords; profile := "driving-car";
       metrics := ["distance"%string]; units := "m" |} (world s) = (answer, w') →
  let built := (build_distance_matrix_ors client coords s).1 in
  match answer with
  | Returns matrix =>
      match answer_rows matrix with
      | Ok rows =>
          if forallb (forallb numeric) rows
          then ∃ m, built = Ok m
                    ∧ Forall2 (Forall2 (fun d z => py_int d = Ok z)) rows m
          else ∃ e, built = Raise e
      | _ => ∃ e, built = Raise e
      end
  | Throws e => built = Raise e
  end.
Proof.
  intros Hanswer built. unfold built, build_distance_matrix_ors.
  mstep run_emit.
  rewrite run_bind. erewrite run_call by (cbn [world]; exact Hanswer).
  destruct answer as [matrix|e]; [|reflexivity]. cbn [result_of].
  unfold answer_rows.
  destruct (getitem matrix (VStr "distances")) as [distances|e|] eqn:Hdist.
  - mstep run_lift. rewrite run_lift. cbn [fst mbind result_bind].
    destruct (py_iter distances) as [rows|e|] eqn:Hrows; cbn [mbind result_bind].
    + pose proof (convert_rows rows) as Hconv.
      destruct (comprehension py_iter rows) as [rs|e|]; [done|done|done].
    + eauto.
    + by destruct distances as [| | |[]| | |].
  - erewrite run_bind_Raise by apply run_lift. cbn. eauto.
  - destruct matrix as [| | |[]| |l|d]; try done; cbn in Hdist.
    + by destruct (assoc "distances" d).
Qed.
End Matrix.

(** ** The geocoding batch *)

Section Batch.
Context {W : Type} {services : Collaborators W}.

Lemma py_index_total {A} (l : list A) i : py_index l i ≠ Diverge.
Proof.
  unfold py_index. cbv zeta.
  destruct (_ || _); [done|]. by destruct (l !! _).
Qed.

Lemma getitem_total x k : getitem x k ≠ Diverge.
Proof.
  destruct x as [|b|z|f|s|l|d], k as [|b'|z'|f'|s'|l'|d']; cbn;
    try done; try apply py_index_total.
  by destruct (assoc s' d).
Qed.

(** The [try] statement always leaves a row with the two fields set; they
    are empty when the geocoder located nothing. *)
Lemma geocode_row_spec (client : Client) (r : row) (addr : value) (s : state W) :
  ∃ lon lat fails,
    geocode_row client r addr s
    = (Ok (set_coords r lon lat),
       {| world := (ors_pelias_search (client_key client) addr 1 (world s)).2;
          log := log s ++ GeocodeCall (client_key client) addr 1 :: fails |})
    ∧ (fails = [] ∨ ∃ e, fails = [GeocodingFailed addr e])
    ∧ (not_found (ors_pelias_search (client_key client) addr 1 (world s)).1 = true →
       lon = VStr "" ∧ lat = VStr "").
Proof.
  unfold geocode_row, try_except.
  rewrite run_bind, run_emit, run_bind. unfold call at 1. cbn [world log].
  destruct (ors_pelias_search (client_key client) addr 1 (world s)) as [[res|e] w'];
    cbn [fst snd not_found result_of];
    repeat first
      [ progress run
      | match goal with
        | |- context [getitem ?x ?k] =>
            let Htotal := fresh in
            pose proof (getitem_total x k) as Htotal;
            destruct (getitem x k); [| |done]; clear Htotal
        | |- context [truthy ?v] => destruct (truthy v)
        end ];
    rewrite <- ?app_assoc; cbn [app];
    (eexists _, _, _; split; [reflexivity|]; split; [by eauto|]; by intros).
Qed.

Lemma dom_set_coords (r : row) (lon lat : value) :
  dom (set_coords r lon lat) = {[Some "lat"%string]} ∪ ({[Some "lon"%string]} ∪ dom r).
Proof. unfold set_coords. by rewrite !dom_insert_L. Qed.

Lemma DictWriter_cells_Ok (fieldnames : list string) (r : row) :
  dom r ⊆ list_to_set (Some <$> fieldnames) →
  DictWriter_cells fieldnames r
  = Ok ((fun key => default (VStr "") (r !! Some key)) <$> fieldnames).
Proof. intros Hdom. unfold DictWriter_cells. by rewrite decide_True. Qed.

(** One turn of the loop: the row is geocoded and written, whatever the
    geocoder did. *)
Lemma geocode_addresses_row_spec (client : Client) (header : list string)
    (r : row) (s : state W) :
  is_Some (r !! Some "address"%string) →
  dom r ⊆ list_to_set (Some <$> header) →
  let addr := field r "address" in
  let fieldnames := (header ++ ["lat"; "lon"]%string) in
  ∃ lon lat fails,
    geocode_addresses_row client fieldnames r tt s
    = (Ok tt,
       {| world := (ors_pelias_search (client_key client) addr 1 (world s)).2;
          log := log s ++ GeocodeCall (client_key client) addr 1 :: fails ++
                 [WriteRow ((fun key => default (VStr "") (set_coords r lon lat !! Some key))
                            <$> fieldnames)] |})
    ∧ (fails = [] ∨ ∃ e, fails = [GeocodingFailed addr e])
    ∧ (not_found (ors_pelias_search (client_key client) addr 1 (world s)).1 = true →
       lon = VStr "" ∧ lat = VStr "").
Proof.
  intros Haddr Hdom addr fieldnames.
  destruct (geocode_row_spec client r addr s) as (lon & lat & fails & Hrow & Hfails & Hnf).
  exists lon, lat, fails. split; [|done].
  unfold geocode_addresses_row. mget Haddr. fold addr. mstep Hrow.
  erewrite run_bind_Ok.
  2:{ rewrite run_lift, DictWriter_cells_Ok; [done|].
      rewrite dom_set_coords. unfold fieldnames.
      rewrite fmap_app, list_to_set_app_L. set_solver. }
  rewrite run_emit. cbn [world log]. by rewrite <- app_assoc.
Qed.

Lemma geocode_addresses_loop (client : Client) (header : list string) (rows : list row) :
  Forall (fun r : row => is_Some (r !! Some "address"%string)
                 ∧ dom r ⊆ list_to_set (Some <$> header)) rows →
  let addrs := (fun r => field r "address") <$> rows in
  ∀ s : state W, ∃ evs,
    for_each rows (geocode_addresses_row client (header ++ ["lat"; "lon"]%string)) tt s
    = (Ok tt, {| world := geocoder_world (client_key client) addrs (world s);
                 log := log s ++ evs |})
    ∧ geocoded evs = addrs
    ∧ Forall2 (row_written header)
              (zip rows (geocoder_answers (client_key client) addrs (world s)))
              (written evs).
Proof.
  induction 1 as [|r rows [Haddr Hdom] _ IH]; intros addrs s.
  - exists []. cbn. rewrite run_ret, app_nil_r, state_eta. repeat split. constructor.
  - destruct (geocode_addresses_row_spec client header r s Haddr Hdom)
      as (lon & lat & fails & Hrow & Hfails & Hnf).
    cbn [for_each]. mstep Hrow.
    match type of Hrow with _ = (_, {| world := _; log := _ ++ ?b |}) =>
      set (block := b) in * end.
    match goal with |- context [for_each rows _ tt ?s1] =>
      destruct (IH s1) as (evs & Hloop & Hcalls & Hcells) end.
    rewrite Hloop. cbn [world log] in *.
    exists (block ++ evs). unfold addrs. cbn [fmap list_fmap].
    split; [|split].
    + cbn [geocoder_world]. by rewrite <- app_assoc.
    + unfold geocoded in *. rewrite omap_app, Hcalls. unfold block.
      cbn [omap list_omap]. rewrite omap_app.
      by destruct Hfails as [->|[e ->]].
    + cbn [geocoder_answers].
      destruct (ors_pelias_search (client_key client) (field r "address") 1 (world s))
        as [answer w'] eqn:Hcall. cbn [fst snd zip zip_with] in *.
      unfold written in *. rewrite omap_app. unfold block.
      cbn [omap list_omap]. rewrite omap_app.
      replace (omap _ fails) with (@nil (list value))
        by (by destruct Hfails as [->|[e ->]]).
      cbn [app omap list_omap]. constructor; [|done].
      exists lon, lat. done.
Qed.

Lemma set_coords_cells (header : list string) (r : row) (lon lat : value) :
  "lat"%string ∉ header → "lon"%string ∉ header →
  (fun key => default (VStr "") (set_coords r lon lat !! Some key))
    <$> (header ++ ["lat"; "lon"]%string)
  = ((fun key => default (VStr "") (r !! Some key)) <$> header) ++ [lat; lon].
Proof.
  intros Hlat Hlon. rewrite fmap_app. f_equal.
  - apply Forall_fmap_ext, Forall_forall. intros key Hkey. unfold set_coords.
    rewrite !lookup_insert_ne; [done| |]; intros [= <-]; done.
  - cbn [fmap list_fmap]. unfold set_coords.
    rewrite lookup_insert_eq, lookup_insert_ne, lookup_insert_eq; done.
Qed.

(** The whole script on a file with a header. *)
Lemma geocode_addresses_spec (header : list string) (records : list (list string))
    (output_csv ors_key : string) (s : state W) :
  "address"%string ∈ header →
  Forall (fun r => (length r ≤ length header)%nat) records →
  let rows := DictReader (header :: records) in
  let addrs := (fun r => field r "address") <$> rows in
  ∃ evs,
    geocode_addresses (header :: records) output_csv ors_key s
    = (Ok tt, {| world := geocoder_world ors_key addrs (world s); log := log s ++ evs |})
    ∧ geocoded evs = addrs
    ∧ Forall2 (row_written header)
              (zip rows (geocoder_answers ors_key addrs (world s)))
              (written evs).
Proof.
  intros Haddr Hlen rows addrs.
  destruct (geocode_addresses_loop {| client_key := ors_key |} header rows)
    with (s := {| world := world s;
                  log := log s ++ [WriteHeader (header ++ ["lat"; "lon"]%string)] |})
    as (evs & Hloop & Hcalls & Hcells).
  { apply Forall_forall. intros r Hr. split.
    - by eapply DictReader_fields.
    - apply list_elem_of_fmap in Hr as (raw & -> & Hraw).
      rewrite dom_DictReader_row; [done|].
      apply list_elem_of_filter in Hraw as [_ Hraw].
      by apply (proj1 (Forall_forall _ _) Hlen). }
  exists (WriteHeader (header ++ ["lat"; "lon"]%string) :: evs ++ [OutputWritten output_csv]).
  unfold geocode_addresses. cbn [DictReader_fieldnames head].
  mstep run_emit. fold rows. mstep Hloop. rewrite run_emit.
  cbn [world log client_key] in *. fold addrs. split; [|split].
  - by rewrite <- !app_assoc.
  - unfold geocoded in *. cbn [omap list_omap]. rewrite omap_app, Hcalls.
    cbn. by rewrite app_nil_r.
  - unfold written in *. cbn [omap list_omap]. rewrite omap_app.
    cbn [omap list_omap]. by rewrite app_nil_r.
Qed.

(** C8.  Whatever the geocoder does with an address - raise, answer
    without features, answer with something unusable - the batch goes on:
    on a file whose header has the address column and whose records are
    not longer than the header, the script completes, asks the geocoder for
    the address of every row in the order of the file, and writes a row
    for each. *)
Theorem geocoding_failures_do_not_abort_the_batch
    (header : list string) (records : list (list string))
    (output_csv ors_key : string) (s : state W) :
  "address"%string ∈ header →
  Forall (fun r => (length r ≤ length header)%nat) records →
  ∃ evs w',
    geocode_addresses (header :: records) output_csv ors_key s
    = (Ok tt, {| world := w'; log := log s ++ evs |})
    ∧ geocoded evs = (fun r => field r "address") <$> DictReader (header :: records)
    ∧ length (written evs) = length (DictReader (header :: records)).
Proof.
  intros Haddr Hlen.
  destruct (geocode_addresses_spec header records output_csv ors_key s Haddr Hlen)
    as (evs & Hrun & Hcalls & Hcells).
  exists evs. eexists. split; [exact Hrun|]. split; [done|].
  apply Forall2_length in Hcells. rewrite <- Hcells, length_zip.
  assert (Hanswers : ∀ addrs w, length (geocoder_answers ors_key addrs w) = length addrs).
  { induction addrs as [|a addrs IH]; intros w; [done|]. cbn.
    destruct (ors_pelias_search ors_key a 1 w). cbn. by rewrite IH. }
  rewrite Hanswers, length_fmap. lia.
Qed.

(** C10, as the code has it.  On a file whose header names each column
    once, has the address column and has no lat or lon column, and whose
    records are not longer than the header, the script writes, for every
    record that is not blank and in the order of the file, one row: the
    record's cells (padded to the header's length), then latitude and
    longitude; both are the empty text when the geocoder raised or
    returned no features. *)
Theorem geocode_addresses_writes_one_row_per_record
    (header : list string) (records : list (list string))
    (output_csv ors_key : string) (s : state W) :
  NoDup header →
  "address"%string ∈ header → "lat"%string ∉ header → "lon"%string ∉ header →
  Forall (fun r => (length r ≤ length header)%nat) records →
  let raws := filter (fun r => r ≠ []) records in
  let addrs := (fun raw => field (DictReader_row header raw) "address") <$> raws in
  ∃ evs w',
    geocode_addresses (header :: records) output_csv ors_key s
    = (Ok tt, {| world := w'; log := log s ++ evs |})
    ∧ length (written evs) = length raws
    ∧ Forall2 (fun (x : list string * outcome value) cells =>
                 ∃ lat lon,
                   cells = padded header x.1 ++ [lat; lon]
                   ∧ (not_found x.2 = true → lat = VStr "" ∧ lon = VStr ""))
              (zip raws (geocoder_answers ors_key addrs (world s)))
              (written evs).
Proof.
  intros Hnd Haddr Hlat Hlon Hlen raws addrs.
  destruct (geocode_addresses_spec header records output_csv ors_key s Haddr Hlen)
    as (evs & Hrun & Hcalls & Hcells).
  exists evs. eexists. split; [exact Hrun|].
  unfold DictReader in Hcells. fold raws in Hcells.
  rewrite <- list_fmap_compose in Hcells.
  change ((fun r : row => field r "address") ∘ DictReader_row header)
    with (fun raw => field (DictReader_row header raw) "address") in Hcells.
  fold addrs in Hcells.
  rewrite zip_with_fmap_l in Hcells.
  assert (Hall : Forall2 (fun (x : list string * outcome value) cells =>
                 ∃ lat lon,
                   cells = padded header x.1 ++ [lat; lon]
                   ∧ (not_found x.2 = true → lat = VStr "" ∧ lon = VStr ""))
              (zip raws (geocoder_answers ors_key addrs (world s)))
              (written evs)).
  { apply Forall2_same_length_lookup. split.
    - apply Forall2_length in Hcells. rewrite length_zip_with in Hcells.
      by rewrite length_zip.
    - intros i [raw answer] cells Hx Hc.
      apply lookup_zip_Some in Hx as [Hraw Hanswer].
      assert (Hrow : zip_with (fun z => pair (DictReader_row header z)) raws
                       (geocoder_answers ors_key addrs (world s)) !! i
                     = Some (DictReader_row header raw, answer)).
      { apply lookup_zip_with_Some. eauto. }
      destruct (Forall2_lookup_lr _ _ _ _ _ _ Hcells Hrow Hc)
        as (lon & lat & -> & Hnf).
      exists lat, lon. cbn [fst snd] in *. split; [|tauto].
      rewrite set_coords_cells by done. f_equal.
      apply DictReader_row_cells; [done|].
      apply list_elem_of_lookup_2 in Hraw.
      apply list_elem_of_filter in Hraw as [_ Hraw].
      by apply (proj1 (Forall_forall _ _) Hlen). }
  split; [|done].
  apply Forall2_length in Hall. rewrite <- Hall, length_zip.
  assert (Hanswers : ∀ addrs w, length (geocoder_answers ors_key addrs w) = length addrs).
  { clear. induction addrs as [|a addrs IH]; intros w; [done|]. cbn.
    destruct (ors_pelias_search ors_key a 1 w). cbn. by rewrite IH. }
  rewrite Hanswers. unfold addrs. rewrite length_fmap. lia.
Qed.
End Batch.

(** * Further properties of the scripts *)

(** ** The loaders *)

Section MoreLoading.
Context {py : Builtins} {W : Type} {services : Collaborators W}.

(** A row has no field under a name the header lacks. *)
Lemma DictReader_row_missing (fieldnames r : list string) (key : string) :
  key ∉ fieldnames → DictReader_row fieldnames r !! Some key = None.
Proof.
  intros Hkey. apply not_elem_of_dom. unfold DictReader_row.
  destruct (Nat.ltb_spec (length fieldnames) (length r)) as [Hlong|Hshort].
  - rewrite dom_insert_L, dom_foldl_cells, fst_zip_take.
    rewrite take_ge by lia. set_solver.
  - fold (DictReader_row fieldnames r).
    pose proof (dom_DictReader_row fieldnames r Hshort) as Hdom.
    unfold DictReader_row in Hdom.
    destruct (Nat.ltb_spec (length fieldnames) (length r)); [lia|].
    rewrite Hdom. set_solver.
Qed.

Lemma row_get_missing (r : row) (key : string) (s : state W) :
  r !! Some key = None → row_get r key s = (Raise KeyError, s).
Proof. intros Hkey. unfold row_get. by rewrite Hkey. Qed.

Lemma py_int_total (v : value) : py_int v ≠ Diverge.
Proof.
  destruct v as [|b|z|[m e|neg|]|s|l|d]; cbn; try done.
  by destruct (int_of_str s).
Qed.

Lemma py_float_total (v : value) : py_float v ≠ Diverge.
Proof.
  destruct v as [|b|z|f|s|l|d]; cbn; try done.
  - by destruct (float_of_Z z).
  - by destruct (float_of_str s).
Qed.

(** One turn of the loop of [load_buses]. *)
Lemma load_buses_row_spec (r : row) (fleet : list bus) (b : bus) (s : state W) :
  is_Some (r !! Some "id"%string) → is_Some (r !! Some "capacity"%string) →
  bus_of_row r = Ok b →
  load_buses_row r fleet s = (Ok (fleet ++ [b]), s).
Proof.
  intros Hid Hcap Hb. unfold load_buses_row, bus_of_row in *.
  destruct (py_int (field r "id")) as [id| |] eqn:Eid; try done.
  destruct (py_int (field r "capacity")) as [capacity| |] eqn:Ecap; try done.
  cbn in Hb. injection Hb as <-.
  mget Hid. mlift Eid. mget Hcap. mlift Ecap. reflexivity.
Qed.

Lemma load_buses_loop (rows : list row) :
  (∀ r, r ∈ rows →
     is_Some (r !! Some "id"%string) ∧ is_Some (r !! Some "capacity"%string)
     ∧ ∃ b, bus_of_row r = Ok b) →
  ∀ acc (s : state W), ∃ fleet,
    for_each rows load_buses_row acc s = (Ok (acc ++ fleet), s)
    ∧ Forall2 (fun r b => bus_of_row r = Ok b) rows fleet.
Proof.
  induction rows as [|r rows IH]; intros Hrows acc s.
  - exists []. split; [|constructor]. cbn. by rewrite run_ret, app_nil_r.
  - destruct (Hrows r ltac:(left)) as (Hid & Hcap & b & Hb).
    destruct (IH (fun r' Hr' => Hrows r' ltac:(by right)) (acc ++ [b]) s)
      as (fleet & Hrun & Hall).
    exists (b :: fleet). cbn [for_each].
    mstep (load_buses_row_spec r acc b s Hid Hcap Hb).
    rewrite Hrun, <- app_assoc. split; [done | by constructor].
Qed.

(** X1.  From a file with the columns id and capacity whose cells are
    integers, [load_buses] returns one bus for every record that is not
    blank, in the order of the file, whatever the capacity is (zero and
    negative capacities are loaded like any other); it prints nothing. *)
Theorem load_buses_loads_every_record
    (header : list string) (records : list (list string)) (s : state W) :
  "id"%string ∈ header → "capacity"%string ∈ header →
  (∀ r, r ∈ DictReader (header :: records) → ∃ b, bus_of_row r = Ok b) →
  ∃ fleet,
    load_buses (header :: records) s = (Ok fleet, s)
    ∧ Forall2 (fun r b => bus_of_row r = Ok b) (DictReader (header :: records)) fleet.
Proof.
  intros Hid Hcap Htyped. unfold load_buses.
  destruct (load_buses_loop (DictReader (header :: records))) with (acc := @nil bus) (s := s)
    as (fleet & Hrun & Hall).
  - intros r Hr. split; [by eapply DictReader_fields|].
    split; [by eapply DictReader_fields | by apply Htyped].
  - exists fleet. by rewrite Hrun.
Qed.

(** X2.  A students file whose header has no lat column and that holds at
    least one record makes [load_students] raise KeyError at the first
    record: no student is returned and nothing is printed. *)
Theorem load_students_without_lat_column
    (header : list string) (records : list (list string)) (s : state W) :
  "lat"%string ∉ header →
  filter (fun r => r ≠ []) records ≠ [] →
  load_students (header :: records) s = (Raise KeyError, s).
Proof.
  intros Hlat Hrecords. unfold load_students, DictReader.
  destruct (filter (fun r => r ≠ []) records) as [|raw raws]; [done|].
  cbn [fmap list_fmap for_each].
  apply run_bind_Raise. unfold load_students_row.
  apply run_bind_Raise, row_get_missing. by apply DictReader_row_missing.
Qed.

Lemma student_of_row_total (r : row) : student_of_row r ≠ Diverge.
Proof.
  unfold student_of_row.
  pose proof (py_int_total (field r "id")).
  pose proof (py_float_total (field r "lat")).
  pose proof (py_float_total (field r "lon")).
  destruct (py_int (field r "id")); try done; cbn.
  destruct (py_float (field r "lat")); try done; cbn.
  by destruct (py_float (field r "lon")).
Qed.

(** A record with both coordinates whose id or coordinates do not convert. *)
Lemma load_students_row_ill_typed (r : row) students e (s : state W) :
  (∀ k, k ∈ ["id"; "name"; "lat"; "lon"]%string → is_Some (r !! Some k)) →
  unresolved r = false →
  student_of_row r = Raise e →
  load_students_row r students s = (Raise e, s).
Proof.
  intros Hkeys Hun Hst. unfold load_students_row.
  assert (Hlat := Hkeys "lat"%string ltac:(set_solver)).
  assert (Hlon := Hkeys "lon"%string ltac:(set_solver)).
  assert (Hname := Hkeys "name"%string ltac:(set_solver)).
  assert (Hid := Hkeys "id"%string ltac:(set_solver)).
  apply orb_false_elim in Hun as [Elat Elon].
  unfold student_of_row in Hst.
  mget Hlat. rewrite Elat.
  erewrite run_bind_Ok; [|mget Hlon; apply run_ret].
  rewrite Elon. mget Hid.
  destruct (py_int (field r "id")) as [id| |] eqn:Eid; try done.
  2:{ cbn in Hst. injection Hst as <-.
      apply run_bind_Raise, run_lift. }
  mstep run_lift. mget Hname. mget Hlat.
  destruct (py_float (field r "lat")) as [lat| |] eqn:Eflat; try done.
  2:{ cbn in Hst. injection Hst as <-.
      apply run_bind_Raise, run_lift. }
  mstep run_lift. mget Hlon.
  destruct (py_float (field r "lon")) as [lon| |] eqn:Eflon; try done.
  cbn in Hst. injection Hst as <-.
  apply run_bind_Raise, run_lift.
Qed.

Lemma load_students_loop_ill_typed (rows : list row) (bad : row) e :
  (∀ r, r ∈ rows →
     ∀ k, k ∈ ["id"; "name"; "lat"; "lon"]%string → is_Some (r !! Some k)) →
  bad ∈ rows → unresolved bad = false → student_of_row bad = Raise e →
  ∀ acc (s : state W), ∃ e' s',
    for_each rows load_students_row acc s = (Raise e', s').
Proof.
  intros Hkeys Hbad Hun Hst.
  induction rows as [|r rows IH]; intros acc s; [by apply elem_of_nil in Hbad|].
  assert (Hr := Hkeys r ltac:(left)).
  cbn [for_each].
  destruct (unresolved r) eqn:Hunr.
  - mstep (load_students_row_unresolved r acc s Hr Hunr).
    apply elem_of_cons in Hbad as [->|Hbad]; [congruence|].
    apply IH; [|done]. intros r' Hr'. apply Hkeys. by right.
  - pose proof (student_of_row_total r) as Htotal.
    destruct (student_of_row r) as [st|e0|] eqn:Hr0; [| |done].
    + mstep (load_students_row_resolved r acc st s Hr Hunr Hr0).
      apply elem_of_cons in Hbad as [->|Hbad]; [congruence|].
      apply IH; [|done]. intros r' Hr'. apply Hkeys. by right.
    + exists e0, s. apply run_bind_Raise.
      by apply load_students_row_ill_typed.
Qed.

(** X3.  One record with both coordinates whose id is no integer, or whose
    latitude or longitude is no number, aborts the whole load: in a file
    with the four columns, [load_students] raises and returns no student,
    not even those of the records before it. *)
Theorem load_students_ill_typed_record_aborts
    (header : list string) (records : list (list string)) (bad : row) (e : exn)
    (s : state W) :
  (∀ k, k ∈ ["id"; "name"; "lat"; "lon"]%string → k ∈ header) →
  bad ∈ DictReader (header :: records) →
  unresolved bad = false →
  student_of_row bad = Raise e →
  ∃ e' s', load_students (header :: records) s = (Raise e', s').
Proof.
  intros Hcols Hbad Hun Hst. unfold load_students.
  eapply load_students_loop_ill_typed; eauto.
  intros r Hr k Hk. eapply DictReader_fields; eauto.
Qed.

Lemma total_replicate (n : nat) : total (replicate n 1) = Z.of_nat n.
Proof.
  induction n as [|n IH]; [done|].
  change (1 + total (replicate n 1) = Z.of_nat (S n)). lia.
Qed.

(** X4.  In the data model the nodes follow the loaded students: node 0 is
    the school, node i + 1 has the (lon, lat) of student i, the capacity
    vector lists the buses' capacities in their order, there are as many
    vehicles as buses, and the demands add up to the number of students. *)
Theorem create_data_model_nodes_follow_students
    (studs : list student) (fleet : list bus) (school_coords : coord)
    (ors_key : string) (s s' : state W) (data : data_model) :
  create_data_model studs fleet school_coords ors_key s = (Ok data, s') →
  coords data !! 0%nat = Some school_coords
  ∧ (∀ i st, studs !! i = Some st →
       students data !! i = Some st
       ∧ coords data !! S i = Some (student_lon st, student_lat st))
  ∧ vehicle_capacities data = bus_capacity <$> fleet
  ∧ num_vehicles data = Z.of_nat (length fleet)
  ∧ depot data = 0
  ∧ total (demands data) = Z.of_nat (length studs).
Proof.
  unfold create_data_model. intros Hrun.
  match type of Hrun with (?m ≫= _) _ = _ =>
    destruct (m s) as [[m'| |] s1] eqn:Hbuild end.
  - mstep Hbuild in Hrun. rewrite run_ret in Hrun. injection Hrun as <- <-.
    cbn [coords students vehicle_capacities num_vehicles depot demands].
    split; [done|]. split; [|split; [done|split; [done|split; [done|]]]].
    + intros i st Hst. split; [done|].
      rewrite lookup_cons. by rewrite list_lookup_fmap, Hst.
    + change (0 + total (replicate (length studs) 1) = Z.of_nat (length studs)).
      rewrite total_replicate. lia.
  - erewrite run_bind_Raise in Hrun by exact Hbuild. done.
  - rewrite run_bind, Hbuild in Hrun. done.
Qed.
End MoreLoading.

(** ** The distance matrix and the run *)

Section MoreOptimizing.
Context {py : Builtins} {W : Type} {services : Collaborators W}.

(** The build is one request and the conversion of its answer. *)
Lemma build_distance_matrix_ors_run (client : Client) (coords : list coord)
    (s : state W) (answer : outcome value) (w' : W) :
  let req := {| locations := coords; profile := "driving-car";
                metrics := ["distance"%string]; units := "m" |} in
  ors_distance_matrix (client_key client) req (world s) = (answer, w') →
  build_distance_matrix_ors client coords s
  = (matrix_of_answer answer,
     {| world := w'; log := log s ++ [DistanceMatrixCall (client_key client) req] |}).
Proof.
  intros req Hanswer. unfold build_distance_matrix_ors. fold req.
  mstep run_emit.
  rewrite run_bind. erewrite run_call by (cbn [world]; exact Hanswer).
  destruct answer as [matrix|e]; [|reflexivity]. cbn [result_of matrix_of_answer].
  rewrite run_bind, run_lift.
  pose proof (getitem_total matrix (VStr "distances")) as Htotal.
  destruct (getitem matrix (VStr "distances")) as [distances|e|]; [| |done]; reflexivity.
Qed.

Lemma build_distance_matrix_ors_log (client : Client) (coords : list coord)
    (s : state W) :
  log (build_distance_matrix_ors client coords s).2
  = log s ++ [DistanceMatrixCall (client_key client)
                {| locations := coords; profile := "driving-car";
                   metrics := ["distance"%string]; units := "m" |}].
Proof.
  destruct (ors_distance_matrix (client_key client)
              {| locations := coords; profile := "driving-car";
                 metrics := ["distance"%string]; units := "m" |} (world s))
    as [answer w'] eqn:Hanswer.
  by rewrite (build_distance_matrix_ors_run _ _ _ _ _ Hanswer).
Qed.

(** X5.  When the distance service raises, the run ends with that very
    exception right after the request: no search is started and nothing is
    printed after the loading. *)
Theorem matrix_failure_aborts_the_run
    (fuel : nat) (students_csv buses_csv : list (list string))
    (school_lat school_lon : pyfloat) (ors_key : string)
    (s s1 s2 : state W) (studs : list student) (fleet : list bus)
    (e : exn) (w' : W) :
  let req := {| locations := [(school_lon, school_lat)] ++
                             ((fun s => (student_lon s, student_lat s)) <$> studs);
                profile := "driving-car";
                metrics := ["distance"%string]; units := "m" |} in
  load_students students_csv s = (Ok studs, s1) →
  load_buses buses_csv s1 = (Ok fleet, s2) →
  ors_distance_matrix ors_key req (world s2) = (Throws e, w') →
  optimize_with_ors fuel students_csv buses_csv school_lat school_lon ors_key s
  = (Raise e, {| world := w'; log := log s2 ++ [DistanceMatrixCall ors_key req] |}).
Proof.
  intros req Hstudents Hbuses Hanswer. unfold optimize_with_ors.
  mstep Hstudents. mstep Hbuses.
  apply run_bind_Raise. unfold create_data_model.
  apply run_bind_Raise.
  exact (build_distance_matrix_ors_run {| client_key := ors_key |} _ _ _ _ Hanswer).
Qed.

Lemma no_service_call_counts (evs : list event) :
  Forall no_service_call evs → requested_profiles evs = [] ∧ searches evs = [].
Proof.
  induction 1 as [|e evs He _ [IH1 IH2]]; [done|].
  unfold requested_profiles, searches in *. cbn [omap list_omap].
  destruct e; try done; by rewrite ?IH1, ?IH2.
Qed.

(** X6.  A run of [optimize_with_ors] asks the distance service at most once
    and starts at most one search, and it starts a search only in a run in
    which it has asked for the distances. *)
Theorem optimize_with_ors_calls_each_service_once
    (fuel : nat) (students_csv buses_csv : list (list string))
    (school_lat school_lon : pyfloat) (ors_key : string) (s : state W) :
  ∃ evs,
    log (optimize_with_ors fuel students_csv buses_csv school_lat school_lon
                           ors_key s).2 = log s ++ evs
    ∧ (length (searches evs) ≤ length (requested_profiles evs) ≤ 1)%nat.
Proof.
  unfold optimize_with_ors.
  destruct (load_students students_csv s) as [r1 s1] eqn:Hstudents.
  destruct (appends_run no_service_call _ _ _ _
              (appends_load_students _ students_csv (fun _ => I)) Hstudents)
    as (evs1 & Hlog1 & Hevs1).
  destruct (no_service_call_counts _ Hevs1) as [Hp1 Hs1].
  rewrite run_bind, Hstudents.
  destruct r1 as [studs|e|]; cbn [snd];
    [|exists evs1; rewrite Hp1, Hs1; split; [done | cbn; lia]..].
  destruct (load_buses buses_csv s1) as [r2 s2] eqn:Hbuses.
  destruct (appends_run no_service_call _ _ _ _
              (appends_load_buses _ buses_csv) Hbuses)
    as (evs2 & Hlog2 & Hevs2).
  destruct (no_service_call_counts _ Hevs2) as [Hp2 Hs2].
  assert (Hp12 : requested_profiles (evs1 ++ evs2) = [])
    by (unfold requested_profiles in *; by rewrite omap_app, Hp1, Hp2).
  assert (Hs12 : searches (evs1 ++ evs2) = [])
    by (unfold searches in *; by rewrite omap_app, Hs1, Hs2).
  rewrite run_bind, Hbuses.
  destruct r2 as [fleet|e|]; cbn [snd];
    [|exists (evs1 ++ evs2); rewrite Hlog2, Hlog1, <- app_assoc, Hp12, Hs12;
      split; [done | cbn; lia]..].
  unfold create_data_model. cbv zeta.
  match goal with |- context [build_distance_matrix_ors ?c ?l] =>
    set (client := c); set (cs := l) end.
  pose proof (build_distance_matrix_ors_log client cs s2) as Hlog3.
  set (req := DistanceMatrixCall _ _) in Hlog3.
  assert (Hp3 : requested_profiles ((evs1 ++ evs2) ++ [req]) = ["driving-car"%string])
    by (unfold requested_profiles in *; by rewrite omap_app, Hp12).
  assert (Hs3 : searches ((evs1 ++ evs2) ++ [req]) = [])
    by (unfold searches in *; by rewrite omap_app, Hs12).
  assert (Hlog : log (build_distance_matrix_ors client cs s2).2
                 = log s ++ (evs1 ++ evs2) ++ [req])
    by (by rewrite Hlog3, Hlog2, Hlog1, <- !app_assoc).
  rewrite !run_bind.
  destruct (build_distance_matrix_ors client cs s2) as [[m| |] s3]; cbn [snd] in *;
    [|exists ((evs1 ++ evs2) ++ [req]); rewrite Hp3, Hs3; split; [done | cbn; lia]..].
  rewrite run_ret.
  match goal with |- context [routing_of ?d] =>
    destruct (routing_of d) as [manager routing] end.
  rewrite run_bind, run_emit, run_bind. unfold call. cbn [world log].
  destruct (SolveWithParameters routing search_params (world s3)) as [[solution|] w'];
    cbn [result_of].
  - match goal with |- context [print_solution ?f ?d ?m ?r ?sol ?st] =>
      destruct (appends_print_solution no_service_call f d m r sol
                  ltac:(by intros []) st) as (evs4 & Hlog4 & Hevs4) end.
    destruct (no_service_call_counts _ Hevs4) as [Hp4 Hs4].
    exists (((evs1 ++ evs2) ++ [req]) ++ SolveCall routing search_params :: evs4).
    rewrite Hlog4. cbn [log]. rewrite Hlog, <- !app_assoc. split; [done|].
    rewrite !app_assoc. unfold requested_profiles, searches in *.
    rewrite !(omap_app _ _ (_ :: evs4)), Hp3, Hs3. cbn [omap list_omap].
    rewrite Hp4, Hs4. cbn. lia.
  - rewrite run_emit. cbn [snd log].
    exists (((evs1 ++ evs2) ++ [req]) ++ [SolveCall routing search_params; NoSolutionFound]).
    rewrite Hlog, <- !app_assoc. split; [done|].
    rewrite !app_assoc. unfold requested_profiles, searches in *.
    rewrite !(omap_app _ _ [_; _]), Hp3, Hs3. cbn. lia.
Qed.

(** X7.  A run whose search returns a solution ends with the report of that
    solution: after the search nothing is printed but the buses' routes and,
    as the last line, the total distance, which is the sum of the routes'
    costs; the message that no solution was found does not appear. *)
Theorem solved_run_ends_with_the_total
    (fuel : nat) (students_csv buses_csv : list (list string))
    (school_lat school_lon : pyfloat) (ors_key : string)
    (s s1 s2 s3 : state W) (studs : list student) (fleet : list bus)
    (data : data_model) (solution : assignment) (w' : W) (routes : list (list Z)) :
  let manager := (routing_of data).1 in
  let routing := (routing_of data).2 in
  load_students students_csv s = (Ok studs, s1) →
  load_buses buses_csv s1 = (Ok fleet, s2) →
  create_data_model studs fleet (school_lon, school_lat) ors_key s2 = (Ok data, s3) →
  SolveWithParameters routing search_params (world s3) = (Some solution, w') →
  well_formed data manager →
  Forall2 (fun v path => route_indices fuel routing solution (Start routing v) = Some path)
          (seqZ 0 (num_vehicles data)) routes →
  ∃ dists reports,
    Forall2 (fun path d => route_cost data manager path = Ok d) routes dists
    ∧ Forall2 vehicle_report dists reports
    ∧ optimize_with_ors fuel students_csv buses_csv school_lat school_lon ors_key s
      = (Ok tt,
         {| world := w';
            log := log s3 ++ [SolveCall routing search_params] ++ concat reports
                   ++ [TotalDistance (total dists)] |}).
Proof.
  intros manager routing Hstudents Hbuses Hdata Hsolve Hwf Hroutes.
  destruct (print_solution_loop data fuel solution (seqZ 0 (num_vehicles data)) routes Hwf)
    with (total_dist := 0)
         (s := {| world := w'; log := log s3 ++ [SolveCall routing search_params] |})
    as (dists & reports & Hdists & Hreps & Hloop); [|done|].
  { apply Forall_forall. intros v Hv. apply elem_of_seqZ in Hv. lia. }
  exists dists, reports. split; [done|]. split; [done|].
  rewrite (optimize_with_ors_from_data _ _ _ _ _ _ _ _ _ _ _ _ _
             Hstudents Hbuses Hdata).
  fold manager routing. cbv zeta. rewrite Hsolve. cbn [fst snd].
  unfold print_solution. mstep Hloop.
  rewrite run_emit. cbn [world log]. by rewrite <- !app_assoc.
Qed.

Lemma convert_row_length ds zs :
  comprehension py_int ds = Ok zs → length zs = length ds.
Proof.
  revert zs. induction ds as [|d ds IH]; cbn; intros zs Hzs.
  - by injection Hzs as <-.
  - destruct (py_int d); try done.
    destruct (comprehension py_int ds) as [zs'| |]; try done.
    injection Hzs as <-. cbn. by rewrite (IH zs').
Qed.

(** A converted matrix has the shape of the answer's rows. *)
Lemma convert_rows_shape (rows : list value) (rs : list (list value)) m :
  comprehension py_iter rows = Ok rs →
  comprehension (fun row => ds ← py_iter row; comprehension py_int ds) rows = Ok m →
  Forall2 (fun r zs => length zs = length r) rs m.
Proof.
  revert rs m. induction rows as [|row rows IH]; cbn; intros rs m Hrs Hm.
  - injection Hrs as <-. injection Hm as <-. constructor.
  - destruct (py_iter row) as [ds| |]; try done. cbn in Hm.
    destruct (comprehension py_int ds) as [zs| |] eqn:Hzs; try done.
    destruct (comprehension py_iter rows) as [rs'| |]; try done.
    destruct (comprehension _ rows) as [m'| |]; try done.
    injection Hrs as <-. injection Hm as <-.
    constructor; [by apply convert_row_length | by apply IH].
Qed.

(** X8.  When the distance service answers with a square matrix of numbers
    that has one row and one column for the school and for each student, the
    data model is built, after one request, with as many demands as the
    matrix has rows and as many capacities as there are vehicles; and for
    every index manager that maps into its nodes the model is well formed
    and no lookup of the two callbacks is out of range: [distance_callback]
    and [demand_callback] return a number at all indices. *)
Theorem complete_matrix_gives_well_formed_data
    (studs : list student) (fleet : list bus) (school_coords : coord)
    (ors_key : string) (s : state W) (matrix : value) (w' : W)
    (rows : list (list value)) :
  let req := {| locations := [school_coords] ++
                             ((fun s => (student_lon s, student_lat s)) <$> studs);
                profile := "driving-car";
                metrics := ["distance"%string]; units := "m" |} in
  ors_distance_matrix ors_key req (world s) = (Returns matrix, w') →
  answer_rows matrix = Ok rows →
  forallb (forallb numeric) rows = true →
  length rows = S (length studs) →
  Forall (fun r => length r = S (length studs)) rows →
  ∃ data,
    create_data_model studs fleet school_coords ors_key s
    = (Ok data, {| world := w'; log := log s ++ [DistanceMatrixCall ors_key req] |})
    ∧ length (demands data) = length (distance_matrix data)
    ∧ Z.of_nat (length (vehicle_capacities data)) = num_vehicles data
    ∧ ∀ manager,
        (∀ i, 0 ≤ IndexToNode manager i < Z.of_nat (S (length studs))) →
        well_formed data manager
        ∧ (∀ i j, ∃ c, distance_callback data manager i j = Ok c)
        ∧ (∀ i, ∃ d, demand_callback data manager i = Ok d).
Proof.
  intros req Hanswer Hrows Hnumeric Hlen Hsquare.
  unfold create_data_model.
  rewrite run_bind,
    (build_distance_matrix_ors_run {| client_key := ors_key |} _ _ _ _ Hanswer).
  cbn [matrix_of_answer]. unfold answer_rows in Hrows.
  destruct (getitem matrix (VStr "distances")) as [distances| |]; try done.
  cbn [mbind result_bind] in *.
  destruct (py_iter distances) as [vs| |]; try done.
  cbn [mbind result_bind] in *.
  pose proof (convert_rows vs) as Hconv. rewrite Hrows, Hnumeric in Hconv.
  destruct Hconv as (m & Hm & _).
  pose proof (convert_rows_shape vs rows m Hrows Hm) as Hshape.
  rewrite Hm, run_ret. eexists. split; [reflexivity|].
  assert (Hm_len : length m = S (length studs))
    by (by rewrite <- (Forall2_length _ _ _ Hshape)).
  assert (Hdemands : length ([0] ++ replicate (length studs) 1) = S (length studs))
    by (cbn; by rewrite length_replicate).
  cbn [distance_matrix demands vehicle_capacities num_vehicles].
  split; [by rewrite Hm_len|]. split; [by rewrite length_fmap|].
  intros manager Hnodes.
  match goal with |- well_formed ?d _ ∧ _ => assert (Hwf : well_formed d manager) end.
  { split; cbn [distance_matrix students coords num_vehicles buses].
    - rewrite Hm_len. apply Forall_forall. intros zs Hzs.
      apply list_elem_of_lookup in Hzs as [i Hi].
      destruct (Forall2_lookup_r _ _ _ _ _ Hshape Hi) as (r & Hr & ->).
      apply (proj1 (Forall_forall _ _) Hsquare). by eapply list_elem_of_lookup_2.
    - by rewrite Hm_len.
    - rewrite Hm_len. cbn. by rewrite length_fmap.
    - done.
    - intros i. rewrite Hm_len. apply Hnodes. }
  split; [exact Hwf|]. split; [intros i j; by apply distance_callback_Ok|].
  intros i. unfold demand_callback. cbn [demands].
  destruct (py_index_Ok ([0] ++ replicate (length studs) 1) (IndexToNode manager i))
    as (d & Hd & _); [rewrite Hdemands; apply Hnodes|].
  by exists d.
Qed.
End MoreOptimizing.

(** ** The report *)

Section MoreReporting.
Context {py : Builtins} {W : Type} {services : Collaborators W}.

Lemma py_index_elem_of {A} (l : list A) (i : Z) (x : A) :
  py_index l i = Ok x → x ∈ l.
Proof.
  unfold py_index. cbv zeta.
  destruct (_ || _); [done|].
  destruct (l !! _) as [y|] eqn:Hy; [|done].
  intros [= <-]. by eapply list_elem_of_lookup_2.
Qed.

(** The names the route walk collects are names of students of the model. *)
Lemma route_loop_names fuel data manager routing solution v :
  ∀ index route_students route_nodes route_dist names nodes dist,
  route_loop fuel data manager routing solution v index
             route_students route_nodes route_dist = Ok (names, nodes, dist) →
  ∃ more,
    names = route_students ++ more
    ∧ Forall (fun n => ∃ st, st ∈ students data ∧ n = student_name st) more.
Proof.
  induction fuel as [|fuel IH]; intros index studs nodes0 dist0 names nodes dist Hloop;
    [done|].
  cbn [route_loop] in Hloop.
  destruct (IsEnd routing index).
  - injection Hloop as <- <- <-. exists []. by rewrite app_nil_r.
  - destruct (negb (IndexToNode manager index =? 0)).
    + destruct (py_index (students data) (IndexToNode manager index - 1))
        as [st| |] eqn:Hst; try done.
      cbn [mbind result_bind] in Hloop.
      destruct (GetArcCostForVehicle routing index (solution index) v) as [c| |];
        try done.
      cbn [mbind result_bind] in Hloop.
      destruct (IH _ _ _ _ _ _ _ Hloop) as (more & -> & Hmore).
      exists (student_name st :: more). rewrite <- app_assoc. split; [done|].
      constructor; [|done]. exists st. split; [|done].
      by eapply py_index_elem_of.
    + cbn [mbind result_bind] in Hloop.
      destruct (GetArcCostForVehicle routing index (solution index) v) as [c| |];
        try done.
      cbn [mbind result_bind] in Hloop. by eapply IH.
Qed.

Lemma comprehension_last {A B} (f : A → result B) (l : list A) (x : A) ys :
  comprehension f (l ++ [x]) = Ok ys → ∃ y, f x = Ok y ∧ last ys = Some y.
Proof.
  revert ys. induction l as [|a l IH]; cbn; intros ys Hys.
  - destruct (f x) as [y| |]; try done. injection Hys as <-. eauto.
  - destruct (f a) as [b| |]; try done.
    destruct (comprehension f (l ++ [x])) as [ys'| |]; try done.
    injection Hys as <-. destruct (IH ys' eq_refl) as (y & Hy & Hlast).
    exists y. split; [done|]. destruct ys'; [done|]. done.
Qed.

(** A loop appends one block of events per element, for as long as it runs. *)
Lemma for_each_blocks {A B} (P : A → list event → Prop) (l : list A)
    (body : A → B → M W B) :
  (∀ x acc s, ∃ block, log (body x acc s).2 = log s ++ block ∧ P x block) →
  ∀ acc s, ∃ blocks,
    log (for_each l body acc s).2 = log s ++ concat blocks
    ∧ Forall2 P (take (length blocks) l) blocks
    ∧ ((∃ a, (for_each l body acc s).1 = Ok a) → length blocks = length l).
Proof.
  intros Hbody. induction l as [|x l IH]; intros acc s.
  - exists []. cbn [for_each concat length]. rewrite run_ret, app_nil_r.
    cbn [fst snd]. repeat split. rewrite take_0. constructor.
  - cbn [for_each]. rewrite run_bind.
    destruct (Hbody x acc s) as (block & Hlog & Hblock).
    destruct (body x acc s) as [[acc'|e|] s1]; cbn [snd] in Hlog.
    + destruct (IH acc' s1) as (blocks & Hlogs & Hblocks & Hall).
      exists (block :: blocks). cbn [concat length take].
      split; [by rewrite Hlogs, Hlog, app_assoc|].
      split; [by constructor|]. intros Hok. by rewrite Hall.
    + exists [block]. cbn [concat length take snd fst]. rewrite app_nil_r, take_0.
      split; [done|]. split; [by repeat constructor|]. by intros [a Ha].
    + exists [block]. cbn [concat length take snd fst]. rewrite app_nil_r, take_0.
      split; [done|]. split; [by repeat constructor|]. by intros [a Ha].
Qed.

Lemma print_solution_vehicle_report fuel data manager routing solution v total_dist
    (s : state W) :
  ∃ block,
    log (print_solution_vehicle fuel data manager routing solution v total_dist s).2
    = log s ++ block
    ∧ bus_report data v block.
Proof.
  unfold print_solution_vehicle. rewrite run_bind, run_lift.
  destruct (route_loop fuel data manager routing solution v (Start routing v) [] [] 0)
    as [[[names nodes] dist]| |] eqn:Hloop;
    [|exists []; rewrite app_nil_r; split; [done | by left]..].
  destruct (route_loop_names _ _ _ _ _ _ _ _ _ _ _ _ _ Hloop) as (more & Hnames & Hmore).
  cbn [app] in Hnames. subst more. cbv beta iota.
  destruct (0 <? length names)%nat eqn:Hsome;
    [|exists []; run; rewrite app_nil_r; split; [done | by left]].
  assert (Hne : names ≠ []) by (by destruct names).
  destruct (py_index (buses data) v) as [b| |] eqn:Hb;
    [|exists []; run; rewrite app_nil_r; split; [done | by left]..].
  destruct (comprehension (fun n => py_index (coords data) n) (nodes ++ [0]))
    as [cs| |] eqn:Hcs; run; rewrite <- ?app_assoc; cbn [app];
    (eexists; split; [reflexivity|]); right; exists b, names;
    (split; [done|]); (split; [done|]); (split; [done|]);
    [|by left..].
  destruct (comprehension_last _ _ _ _ Hcs) as (c & Hc & Hlast).
  right. by exists cs, c, dist.
Qed.

(** X9.  Whatever the solution is and however the report ends, what
    [print_solution] adds to the log is, for the vehicles in their order and
    for as long as it runs, nothing or the report of that vehicle's bus: the
    header of bus [v], then a list, never empty, of names of students of the
    model, then (unless a coordinate lookup raised) a route that ends with
    the coordinate of node 0 and the route's distance.  The total follows
    exactly when the report completes, and then every vehicle was dealt
    with.  So a bus is shown only with at least one student, and no service
    is called and no warning or failure is printed. *)
Theorem print_solution_shows_only_the_model
    (fuel : nat) (data : data_model) (manager : RoutingIndexManager)
    (routing : RoutingModel) (solution : assignment) (s : state W) :
  let run := print_solution fuel data manager routing solution s in
  let vehicles := seqZ 0 (num_vehicles data) in
  ∃ blocks final,
    log run.2 = log s ++ concat blocks ++ final
    ∧ Forall2 (bus_report data) (take (length blocks) vehicles) blocks
    ∧ ((run.1 = Ok tt ∧ length blocks = length vehicles
        ∧ ∃ total_dist, final = [TotalDistance total_dist])
       ∨ (run.1 ≠ Ok tt ∧ final = [])).
Proof.
  intros run vehicles. unfold run, print_solution. rewrite run_bind.
  destruct (for_each_blocks (bus_report data) vehicles
              (print_solution_vehicle fuel data manager routing solution)
              (print_solution_vehicle_report fuel data manager routing solution) 0 s)
    as (blocks & Hlog & Hblocks & Hall).
  fold vehicles.
  destruct (for_each vehicles _ 0 s) as [[total_dist|e|] s1]; cbn [fst snd] in *.
  - exists blocks, [TotalDistance total_dist]. rewrite run_emit. cbn [fst snd log].
    split; [by rewrite Hlog, app_assoc|]. split; [done|]. left.
    split; [done|]. split; [by eauto|]. by eexists.
  - exists blocks, []. rewrite app_nil_r. split; [done|]. split; [done|]. by right.
  - exists blocks, []. rewrite app_nil_r. split; [done|]. split; [done|]. by right.
Qed.
End MoreReporting.

(** ** The geocoding batch, row by row *)

Section MoreBatch.
Context {W : Type} {services : Collaborators W}.

Lemma coords_of_answer_total (answer : outcome value) :
  coords_of_answer answer ≠ Diverge.
Proof.
  destruct answer as [res|e]; cbn; [|done].
  repeat first
    [ done
    | progress cbn [mbind result_bind]
    | match goal with
      | |- context [getitem ?x ?k] =>
          let Htotal := fresh in
          pose proof (getitem_total x k) as Htotal;
          destruct (getitem x k); [| |done]; clear Htotal
      | |- context [truthy ?v] => destruct (truthy v)
      end ].
Qed.

(** The [try] statement, exactly: the row gets the coordinates read from the
    answer, and the failure message is printed when reading them raised. *)
Lemma geocode_row_exact (client : Client) (r : row) (addr : value) (s : state W) :
  let answer := (ors_pelias_search (client_key client) addr 1 (world s)).1 in
  geocode_row client r addr s
  = (Ok (set_coords r (geocoded_coords answer).1 (geocoded_coords answer).2),
     {| world := (ors_pelias_search (client_key client) addr 1 (world s)).2;
        log := log s ++ GeocodeCall (client_key client) addr 1
                        :: failure_message addr answer |}).
Proof.
  unfold geocode_row, try_except, geocoded_coords, failure_message, coords_of_answer.
  rewrite run_bind, run_emit, run_bind. unfold call at 1. cbn [world log].
  destruct (ors_pelias_search (client_key client) addr 1 (world s)) as [[res|e] w'];
    cbn [fst snd result_of]; run;
    [|by rewrite <- app_assoc].
  assert (Hread : ∀ (x k : value) (P : result value → Prop),
            (∀ v, P (Ok v)) → (∀ e, P (Raise e)) → P (getitem x k)).
  { intros x k P HOk HRaise. pose proof (getitem_total x k).
    by destruct (getitem x k). }
  pattern (getitem res (VStr "features")). apply Hread;
    [intros features|intros e]; run; [|by rewrite <- app_assoc].
  destruct (truthy features); run; [|done].
  pattern (getitem features (VInt 0)). apply Hread;
    [intros feature|intros e]; run; [|by rewrite <- app_assoc].
  pattern (getitem feature (VStr "geometry")). apply Hread;
    [intros geometry|intros e]; run; [|by rewrite <- app_assoc].
  pattern (getitem geometry (VStr "coordinates")). apply Hread;
    [intros coords|intros e]; run; [|by rewrite <- app_assoc].
  pattern (getitem coords (VInt 0)). apply Hread;
    [intros lon|intros e]; run; [|by rewrite <- app_assoc].
  pattern (getitem coords (VInt 1)). apply Hread;
    [intros lat|intros e]; run; [|by rewrite <- app_assoc].
  done.
Qed.

(** One turn of the loop, exactly. *)
Lemma geocode_addresses_row_exact (client : Client) (header : list string)
    (r : row) (s : state W) :
  is_Some (r !! Some "address"%string) →
  dom r ⊆ list_to_set (Some <$> header) →
  let fieldnames := (header ++ ["lat"; "lon"]%string) in
  let call := ors_pelias_search (client_key client) (field r "address") 1 (world s) in
  geocode_addresses_row client fieldnames r tt s
  = (Ok tt, {| world := call.2;
               log := log s ++ row_events (client_key client) fieldnames r call.1 |}).
Proof.
  intros Haddr Hdom fieldnames call.
  unfold geocode_addresses_row. mget Haddr.
  mstep geocode_row_exact.
  erewrite run_bind_Ok.
  2:{ rewrite run_lift, DictWriter_cells_Ok; [done|].
      rewrite dom_set_coords. unfold fieldnames.
      rewrite fmap_app, list_to_set_app_L. set_solver. }
  rewrite run_emit. cbn [world log]. unfold row_events, cells_of_row.
  by rewrite <- app_assoc.
Qed.

(** The loop, exactly: the log grows by the events of each row in turn. *)
Lemma geocode_addresses_loop_exact (client : Client) (header : list string)
    (rows : list row) :
  Forall (fun r : row => is_Some (r !! Some "address"%string)
                 ∧ dom r ⊆ list_to_set (Some <$> header)) rows →
  let addrs := (fun r => field r "address") <$> rows in
  let fieldnames := (header ++ ["lat"; "lon"]%string) in
  ∀ s : state W,
    for_each rows (geocode_addresses_row client fieldnames) tt s
    = (Ok tt,
       {| world := geocoder_world (client_key client) addrs (world s);
          log := log s
                 ++ concat (zip_with (row_events (client_key client) fieldnames) rows
                              (geocoder_answers (client_key client) addrs (world s))) |}).
Proof.
  induction 1 as [|r rows [Haddr Hdom] _ IH]; intros addrs fieldnames s.
  - cbn. by rewrite run_ret, app_nil_r, state_eta.
  - cbn [for_each]. mstep (geocode_addresses_row_exact client header r s Haddr Hdom).
    rewrite IH. cbn [world log]. unfold addrs. cbn [fmap list_fmap].
    cbn [geocoder_world geocoder_answers].
    destruct (ors_pelias_search (client_key client) (field r "address") 1 (world s))
      as [answer w'].
    cbn [fst snd zip_with concat]. by rewrite <- app_assoc.
Qed.

Lemma DictReader_rows_ok (header : list string) (records : list (list string)) :
  "address"%string ∈ header →
  Forall (fun r => (length r ≤ length header)%nat) records →
  Forall (fun r : row => is_Some (r !! Some "address"%string)
                 ∧ dom r ⊆ list_to_set (Some <$> header))
         (DictReader (header :: records)).
Proof.
  intros Haddr Hlen. apply Forall_forall. intros r Hr. split.
  - by eapply DictReader_fields.
  - apply list_elem_of_fmap in Hr as (raw & -> & Hraw).
    rewrite dom_DictReader_row; [done|].
    apply list_elem_of_filter in Hraw as [_ Hraw].
    by apply (proj1 (Forall_forall _ _) Hlen).
Qed.

(** The whole script, exactly. *)
Lemma geocode_addresses_exact (header : list string) (records : list (list string))
    (output_csv ors_key : string) (s : state W) :
  "address"%string ∈ header →
  Forall (fun r => (length r ≤ length header)%nat) records →
  let rows := DictReader (header :: records) in
  let addrs := (fun r => field r "address") <$> rows in
  let fieldnames := (header ++ ["lat"; "lon"]%string) in
  geocode_addresses (header :: records) output_csv ors_key s
  = (Ok tt,
     {| world := geocoder_world ors_key addrs (world s);
        log := log s
               ++ WriteHeader fieldnames
               :: concat (zip_with (row_events ors_key fieldnames) rows
                            (geocoder_answers ors_key addrs (world s)))
               ++ [OutputWritten output_csv] |}).
Proof.
  intros Haddr Hlen rows addrs fieldnames.
  unfold geocode_addresses. cbn [DictReader_fieldnames head].
  mstep run_emit. fold rows.
  mstep (geocode_addresses_loop_exact {| client_key := ors_key |} header rows
           (DictReader_rows_ok header records Haddr Hlen)).
  rewrite run_emit. cbn [world log client_key]. fold addrs fieldnames.
  by rewrite <- !app_assoc.
Qed.

Lemma written_row_events (key : string) (fieldnames : list string) (rows : list row) (answers : list (outcome value)) :
  written (concat (zip_with (row_events key fieldnames) rows answers))
  = zip_with (cells_of_row fieldnames) rows answers.
Proof.
  revert answers. induction rows as [|r rows IH]; intros [|answer answers]; try done.
  cbn [zip_with concat]. unfold written in *. rewrite omap_app, IH.
  unfold row_events, failure_message. cbn [omap list_omap]. rewrite omap_app.
  by destruct (coords_of_answer answer).
Qed.

Lemma printed_row_events (key : string) (fieldnames : list string) (rows : list row) (answers : list (outcome value)) :
  printed (concat (zip_with (row_events key fieldnames) rows answers))
  = concat (zip_with (fun r => failure_message (field r "address")) rows answers).
Proof.
  revert answers. induction rows as [|r rows IH]; intros [|answer answers]; try done.
  cbn [zip_with concat]. unfold printed in *. rewrite filter_app, IH.
  unfold row_events, failure_message. f_equal.
  by destruct (coords_of_answer answer).
Qed.

Lemma length_geocoder_answers (key : string) (addrs : list value) (w : W) :
  length (geocoder_answers key addrs w) = length addrs.
Proof.
  revert w. induction addrs as [|a addrs IH]; intros w; [done|]. cbn.
  destruct (ors_pelias_search key a 1 w). cbn. by rewrite IH.
Qed.

(** X10.  A file without an address column: the header, with lat and lon
    appended, is written, and the first record raises KeyError; the geocoder
    is never asked, no row is written and the closing message is not
    printed. *)
Theorem geocode_addresses_without_address_column
    (header : list string) (records : list (list string))
    (output_csv ors_key : string) (s : state W) :
  "address"%string ∉ header →
  filter (fun r => r ≠ []) records ≠ [] →
  geocode_addresses (header :: records) output_csv ors_key s
  = (Raise KeyError,
     {| world := world s;
        log := log s ++ [WriteHeader (header ++ ["lat"; "lon"]%string)] |}).
Proof.
  intros Haddr Hrecords.
  unfold geocode_addresses. cbn [DictReader_fieldnames head DictReader].
  mstep run_emit.
  destruct (filter (fun r => r ≠ []) records) as [|raw raws]; [done|].
  cbn [fmap list_fmap for_each].
  erewrite run_bind_Raise; [done|].
  eapply run_bind_Raise. unfold geocode_addresses_row.
  eapply run_bind_Raise. apply row_get_missing.
  by apply DictReader_row_missing.
Qed.

(** X11.  A file that already has a lat or a lon column: in every row
    written, the cell of that column holds the coordinate read from the
    geocoder's answer (the empty text when nothing was located), whatever the
    record held there. *)
Theorem geocode_addresses_overwrites_coordinates
    (header : list string) (records : list (list string))
    (output_csv ors_key : string) (s : state W) :
  "address"%string ∈ header →
  Forall (fun r => (length r ≤ length header)%nat) records →
  let rows := DictReader (header :: records) in
  let addrs := (fun r => field r "address") <$> rows in
  ∃ evs w',
    geocode_addresses (header :: records) output_csv ors_key s
    = (Ok tt, {| world := w'; log := log s ++ evs |})
    ∧ Forall2 (fun (answer : outcome value) cells =>
                 ∀ i : nat,
                   (header !! i = Some "lat"%string →
                    cells !! i = Some (geocoded_coords answer).2)
                   ∧ (header !! i = Some "lon"%string →
                      cells !! i = Some (geocoded_coords answer).1))
              (geocoder_answers ors_key addrs (world s))
              (written evs).
Proof.
  intros Haddr Hlen rows addrs.
  eexists _, _. split; [by apply geocode_addresses_exact|].
  fold rows addrs. unfold written. cbn [omap list_omap]. rewrite omap_app.
  cbn [omap list_omap]. rewrite app_nil_r.
  fold (written (concat (zip_with (row_events ors_key (header ++ ["lat"; "lon"]%string))
                           rows (geocoder_answers ors_key addrs (world s))))).
  rewrite written_row_events.
  apply Forall2_same_length_lookup. split.
  - rewrite length_zip_with, length_geocoder_answers. unfold addrs.
    rewrite length_fmap. lia.
  - intros n answer cells Hanswer Hcells.
    apply lookup_zip_with_Some in Hcells as (r & answer' & -> & Hr & Hanswer').
    rewrite Hanswer in Hanswer'. injection Hanswer' as <-.
    intros i. unfold cells_of_row.
    split; intros Hi; rewrite list_lookup_fmap, lookup_app_l
      by (by eapply lookup_lt_Some); rewrite Hi; cbn [fmap option_fmap option_map];
      unfold set_coords.
    + by rewrite lookup_insert_eq.
    + rewrite lookup_insert_ne by done. by rewrite lookup_insert_eq.
Qed.

(** X12.  The output file, exactly.  On a file whose header names each
    column once, has the address column and no lat or lon column, and whose
    records are not longer than the header, the script writes the header
    followed by lat and lon and then, for every record that is not blank and
    in the order of the file, the record's cells followed by [coords[1]] and
    [coords[0]] of the first feature of the geocoder's answer: latitude
    first, although the answer has the longitude first. *)
Theorem geocode_addresses_output_file
    (header : list string) (records : list (list string))
    (output_csv ors_key : string) (s : state W) :
  NoDup header →
  "address"%string ∈ header → "lat"%string ∉ header → "lon"%string ∉ header →
  Forall (fun r => (length r ≤ length header)%nat) records →
  let raws := filter (fun r => r ≠ []) records in
  let addrs := (fun raw => field (DictReader_row header raw) "address") <$> raws in
  ∃ evs w',
    geocode_addresses (header :: records) output_csv ors_key s
    = (Ok tt, {| world := w'; log := log s ++ evs |})
    ∧ head evs = Some (WriteHeader (header ++ ["lat"; "lon"]%string))
    ∧ written evs
      = zip_with (fun raw answer =>
                    padded header raw
                    ++ [(geocoded_coords answer).2; (geocoded_coords answer).1])
                 raws (geocoder_answers ors_key addrs (world s)).
Proof.
  intros Hnd Haddr Hlat Hlon Hlen raws addrs.
  eexists _, _. split; [by apply geocode_addresses_exact|]. split; [done|].
  unfold written. cbn [omap list_omap]. rewrite omap_app.
  cbn [omap list_omap]. rewrite app_nil_r.
  match goal with |- omap _ ?l = _ => change (written l = zip_with
    (fun raw answer => padded header raw
       ++ [(geocoded_coords answer).2; (geocoded_coords answer).1])
    raws (geocoder_answers ors_key addrs (world s))) end.
  rewrite written_row_events.
  unfold DictReader. fold raws. rewrite <- list_fmap_compose.
  change ((fun r : row => field r "address") ∘ DictReader_row header)
    with (fun raw => field (DictReader_row header raw) "address").
  fold addrs. rewrite zip_with_fmap_l.
  apply Forall_zip_with_ext_l; [|done].
  apply Forall_forall. intros raw Hraw answer.
  unfold cells_of_row. rewrite set_coords_cells by done. f_equal.
  apply DictReader_row_cells; [done|].
  apply list_elem_of_filter in Hraw as [_ Hraw].
  by apply (proj1 (Forall_forall _ _) Hlen).
Qed.

(** X13.  What the geocoding script prints.  On a file whose header has the
    address column and whose records are not longer than the header, the
    console shows one failure message for every record at which the [try]
    block raised (the geocoder raised, or its answer could not be read),
    with the record's address and in the order of the file, and then the
    closing message; an answer without features gives no message. *)
Theorem geocode_addresses_messages
    (header : list string) (records : list (list string))
    (output_csv ors_key : string) (s : state W) :
  "address"%string ∈ header →
  Forall (fun r => (length r ≤ length header)%nat) records →
  let addrs := (fun r => field r "address") <$> DictReader (header :: records) in
  ∃ evs w',
    geocode_addresses (header :: records) output_csv ors_key s
    = (Ok tt, {| world := w'; log := log s ++ evs |})
    ∧ printed evs
      = concat (zip_with failure_message addrs
                  (geocoder_answers ors_key addrs (world s)))
        ++ [OutputWritten output_csv].
Proof.
  intros Haddr Hlen addrs.
  eexists _, _. split; [by apply geocode_addresses_exact|].
  unfold printed. rewrite filter_cons_False by (cbn; done).
  rewrite filter_app.
  match goal with |- filter _ ?l ++ _ = _ =>
    change (filter (fun e => is_print e = true) l) with (printed l) end.
  rewrite printed_row_events. fold addrs. unfold addrs at 2.
  by rewrite zip_with_fmap_l.
Qed.

(** X14.  The closing message is printed exactly when the script completes:
    on every input and whatever the geocoder does, the log of a completed
    run ends with the closing message and has no other, and the log of a run
    that raised has none. *)
Theorem geocode_addresses_closing_message
    (input_csv : list (list string)) (output_csv ors_key : string) (s : state W) :
  let run := geocode_addresses input_csv output_csv ors_key s in
  ∃ evs,
    Forall not_closing evs
    ∧ ((run.1 = Ok tt ∧ log run.2 = log s ++ evs ++ [OutputWritten output_csv])
       ∨ (run.1 ≠ Ok tt ∧ log run.2 = log s ++ evs)).
Proof.
  unfold geocode_addresses.
  destruct (DictReader_fieldnames input_csv) as [reader_fieldnames|]; cbv zeta.
  2:{ exists []. split; [done|]. right. cbn. by rewrite app_nil_r. }
  rewrite run_bind, run_emit. cbv beta iota. rewrite run_bind.
  match goal with |- context [for_each ?l ?body tt ?s1] =>
    assert (Hloop : appends not_closing (for_each l body tt));
    [|destruct (Hloop s1) as (evs & Hlog & Hevs);
      destruct (for_each l body tt s1) as [[[]|e|] s2]]
  end.
  { apply appends_for_each. intros r [].
    unfold geocode_addresses_row, geocode_row. repeat (appends_step; try exact I). }
  all: cbn [snd log] in Hlog; rewrite <- app_assoc in Hlog;
    eexists (WriteHeader _ :: evs); (split; [by constructor|]).
  - left. rewrite run_emit. cbn [fst snd log]. split; [done|].
    by rewrite Hlog, <- !app_assoc.
  - right. by cbn [fst snd].
  - right. by cbn [fst snd].
Qed.
End MoreBatch.

(** * The theorems at work on the scripted world *)

#[local] Existing Instance Example.builtins.
#[local] Existing Instance Example.collaborators.

(** C7 on the five records of [Example.students_csv]: Dara, who has no
    coordinates, is skipped with a warning, and the four others are loaded. *)
Lemma load_students_excludes_unresolved_witness :
  let header := ["id"; "name"; "lat"; "lon"]%string in
  let records := [ ["1"; "Asha"; "30"; "76"];
                   ["2"; "Bilal"; "31"; "76"];
                   ["3"; "Chen"; "31"; "77"];
                   ["4"; "Dara"; ""; ""];
                   ["5"; "Eli"; "32"; "77"] ]%string in
  let s := Example.start Example.solved in
  (∀ k, k ∈ ["id"; "name"; "lat"; "lon"]%string → k ∈ header)
  ∧ (∀ r, r ∈ DictReader (header :: records) → unresolved r = false →
          ∃ st, student_of_row r = Ok st)
  ∧ ∃ studs,
      load_students (header :: records) s
      = (Ok studs,
         {| world := world s;
            log := log s ++ skipped (DictReader (header :: records)) |})
      ∧ Forall2 (fun r st => student_of_row r = Ok st)
                (filter (fun r => unresolved r = false) (DictReader (header :: records)))
                studs
      ∧ ∀ buses school_coords ors_key (s1 s2 : state Example.script) data,
          create_data_model studs buses school_coords ors_key s1 = (Ok data, s2) →
          students data = studs
          ∧ length (coords data) = S (length studs)
          ∧ length (demands data) = S (length studs).
Proof.
  cbv zeta.
  assert (Hcols : ∀ k, k ∈ ["id"; "name"; "lat"; "lon"]%string
                       → k ∈ ["id"; "name"; "lat"; "lon"]%string) by (intros k Hk; exact Hk).
  split; [exact Hcols|].
  match goal with |- ?A ∧ _ => assert (Htyped : A) end.
  { intros r Hr Hun.
    apply list_elem_of_fmap in Hr as (raw & -> & Hraw).
    apply list_elem_of_filter in Hraw as [_ Hraw].
    repeat (apply elem_of_cons in Hraw as [->|Hraw]);
      [ eexists; reflexivity | eexists; reflexivity | eexists; reflexivity
      | vm_compute in Hun; discriminate Hun | eexists; reflexivity
      | by apply elem_of_nil in Hraw ]. }
  split; [exact Htyped|].
  exact (load_students_excludes_unresolved _ _ _ Hcols Htyped).
Defined.

(** C9 on the four students and the bus of capacity three. *)
Lemma create_data_model_demands_witness :
  let data := Example.data_of Example.one_bus in
  create_data_model Example.students4 Example.one_bus Example.school "k"
                    (Example.loaded Example.unsolved)
  = (Ok data, Example.modelled Example.unsolved)
  ∧ (length (demands data) = S (length Example.students4)
     ∧ length (coords data) = S (length Example.students4)
     ∧ ∀ node, 0 ≤ node < Z.of_nat (S (length Example.students4)) →
         py_index (demands data) node = Ok (if node =? 0 then 0 else 1)).
Proof.
  cbv zeta.
  assert (Hrun : create_data_model Example.students4 Example.one_bus Example.school "k"
                   (Example.loaded Example.unsolved)
                 = (Ok (Example.data_of Example.one_bus), Example.modelled Example.unsolved))
    by (vm_compute; reflexivity).
  split; [exact Hrun|].
  exact (create_data_model_demands _ _ _ _ _ _ _ Hrun).
Defined.

(** C4 on the two routes of [Example.two_routes]: 4000 m and 8000 m, and a
    total of 12000 m. *)
Lemma print_solution_total_is_sum_of_routes_witness :
  let data := Example.data_of Example.two_buses in
  let manager := (routing_of data).1 in
  let routing := (routing_of data).2 in
  let routes := [[0; 1; 2; 6]; [5; 3; 4; 7]] in
  let s := Example.modelled Example.solved in
  well_formed data manager
  ∧ Forall2 (fun v path =>
               route_indices 10 routing Example.two_routes (Start routing v) = Some path)
            (seqZ 0 (num_vehicles data)) routes
  ∧ ∃ dists reports,
      Forall2 (fun path d => route_cost data manager path = Ok d) routes dists
      ∧ Forall2 vehicle_report dists reports
      ∧ print_solution 10 data manager routing Example.two_routes s
        = (Ok tt,
           {| world := world s;
              log := log s ++ concat reports ++ [TotalDistance (total dists)] |}).
Proof.
  cbv zeta.
  assert (Hwf : well_formed (Example.data_of Example.two_buses)
                            (routing_of (Example.data_of Example.two_buses)).1).
  { split.
    - repeat constructor.
    - reflexivity.
    - reflexivity.
    - reflexivity.
    - intros i. change (0 ≤ (if (0 <=? i) && (i <? 5) then i else 0) < 5).
      destruct (Z.leb_spec 0 i), (Z.ltb_spec i 5); cbn [andb]; lia. }
  assert (Hroutes :
    Forall2 (fun v path =>
               route_indices 10 (routing_of (Example.data_of Example.two_buses)).2
                             Example.two_routes
                             (Start (routing_of (Example.data_of Example.two_buses)).2 v)
               = Some path)
            (seqZ 0 (num_vehicles (Example.data_of Example.two_buses)))
            [[0; 1; 2; 6]; [5; 3; 4; 7]]).
  { repeat constructor. }
  split; [exact Hwf|]. split; [exact Hroutes|].
  exact (print_solution_total_is_sum_of_routes 10 _ _ _ _ Hwf Hroutes).
Defined.

(** C1 on four students and one bus of capacity three: the demand exceeds
    the capacity, and the search is started all the same. *)
Lemma search_runs_without_capacity_check_witness :
  let data := Example.data_of Example.one_bus in
  let s := Example.start Example.unsolved in
  let s1 := Example.loaded Example.unsolved in
  let s3 := Example.modelled Example.unsolved in
  let routing := (routing_of data).2 in
  let run := optimize_with_ors 10 Example.students_csv Example.small_buses_csv
                               (FFinite 30 0) (FFinite 76 0) "k" s in
  load_students Example.students_csv s = (Ok Example.students4, s1)
  ∧ load_buses Example.small_buses_csv s1 = (Ok Example.one_bus, s1)
  ∧ create_data_model Example.students4 Example.one_bus (FFinite 76 0, FFinite 30 0) "k" s1
    = (Ok data, s3)
  ∧ ∃ before after,
      log run.2 = log s ++ before ++ SolveCall routing search_params :: after
      ∧ Forall before_search before
      ∧ ((SolveWithParameters routing search_params (world s3)).1 = None →
         run.1 = Ok tt ∧ after = [NoSolutionFound]).
Proof.
  cbv zeta.
  assert (Hstudents : load_students Example.students_csv (Example.start Example.unsolved)
                      = (Ok Example.students4, Example.loaded Example.unsolved))
    by (vm_compute; reflexivity).
  assert (Hbuses : load_buses Example.small_buses_csv (Example.loaded Example.unsolved)
                   = (Ok Example.one_bus, Example.loaded Example.unsolved))
    by (vm_compute; reflexivity).
  assert (Hdata : create_data_model Example.students4 Example.one_bus
                    (FFinite 76 0, FFinite 30 0) "k" (Example.loaded Example.unsolved)
                  = (Ok (Example.data_of Example.one_bus), Example.modelled Example.unsolved))
    by (vm_compute; reflexivity).
  split; [exact Hstudents|]. split; [exact Hbuses|]. split; [exact Hdata|].
  exact (search_runs_without_capacity_check 10 _ _ _ _ _ _ _ _ _ _ _ _
           Hstudents Hbuses Hdata).
Defined.

(** C2 on the same run, whose search finds nothing. *)
Lemma no_solution_is_reported_uniformly_witness :
  let data := Example.data_of Example.one_bus in
  let s := Example.start Example.unsolved in
  let s1 := Example.loaded Example.unsolved in
  let s3 := Example.modelled Example.unsolved in
  load_students Example.students_csv s = (Ok Example.students4, s1)
  ∧ load_buses Example.small_buses_csv s1 = (Ok Example.one_bus, s1)
  ∧ create_data_model Example.students4 Example.one_bus (FFinite 76 0, FFinite 30 0) "k" s1
    = (Ok data, s3)
  ∧ SolveWithParameters (routing_of data).2 search_params (world s3)
    = (None, Example.unsolved)
  ∧ optimize_with_ors 10 Example.students_csv Example.small_buses_csv
                      (FFinite 30 0) (FFinite 76 0) "k" s
    = (Ok tt,
       {| world := Example.unsolved;
          log := log s3 ++ [SolveCall (routing_of data).2 search_params;
                            NoSolutionFound] |}).
Proof.
  cbv zeta.
  assert (Hstudents : load_students Example.students_csv (Example.start Example.unsolved)
                      = (Ok Example.students4, Example.loaded Example.unsolved))
    by (vm_compute; reflexivity).
  assert (Hbuses : load_buses Example.small_buses_csv (Example.loaded Example.unsolved)
                   = (Ok Example.one_bus, Example.loaded Example.unsolved))
    by (vm_compute; reflexivity).
  assert (Hdata : create_data_model Example.students4 Example.one_bus
                    (FFinite 76 0, FFinite 30 0) "k" (Example.loaded Example.unsolved)
                  = (Ok (Example.data_of Example.one_bus), Example.modelled Example.unsolved))
    by (vm_compute; reflexivity).
  assert (Hsolve : SolveWithParameters (routing_of (Example.data_of Example.one_bus)).2
                     search_params (world (Example.modelled Example.unsolved))
                   = (None, Example.unsolved))
    by reflexivity.
  split; [exact Hstudents|]. split; [exact Hbuses|]. split; [exact Hdata|].
  split; [exact Hsolve|].
  exact (no_solution_is_reported_uniformly 10 _ _ _ _ _ _ _ _ _ _ _ _ _
           Hstudents Hbuses Hdata Hsolve).
Defined.

(** C5 on an answer with a null entry: no matrix is returned. *)
Lemma build_distance_matrix_ors_all_or_nothing_witness :
  let client := {| client_key := "k" |} in
  let coords := [Example.school; (FFinite 76 0, FFinite 31 0)] in
  let s := Example.start Example.unroutable in
  ors_distance_matrix (client_key client)
    {| locations := coords; profile := "driving-car";
       metrics := ["distance"%string]; units := "m" |} (world s)
  = (Example.matrix_answer Example.unroutable, Example.unroutable)
  ∧ ∃ e, (build_distance_matrix_ors client coords s).1 = Raise e.
Proof.
  cbv zeta.
  assert (Hanswer :
    ors_distance_matrix (client_key {| client_key := "k" |})
      {| locations := [Example.school; (FFinite 76 0, FFinite 31 0)];
         profile := "driving-car"; metrics := ["distance"%string]; units := "m" |}
      (world (Example.start Example.unroutable))
    = (Example.matrix_answer Example.unroutable, Example.unroutable))
    by reflexivity.
  split; [exact Hanswer|].
  exact (build_distance_matrix_ors_all_or_nothing _ _ _ _ _ Hanswer).
Defined.

(** C8 on a batch in which the geocoder fails on the second and the last
    address and finds nothing for the third. *)
Lemma geocoding_failures_do_not_abort_the_batch_witness :
  let header := Example.addresses_header in
  let records := Example.addresses_records in
  let s := Example.start Example.geocoding in
  "address"%string ∈ header
  ∧ Forall (fun r => (length r ≤ length header)%nat) records
  ∧ ∃ evs w',
      geocode_addresses (header :: records) "out.csv" "k" s
      = (Ok tt, {| world := w'; log := log s ++ evs |})
      ∧ geocoded evs = (fun r => field r "address") <$> DictReader (header :: records)
      ∧ length (written evs) = length (DictReader (header :: records)).
Proof.
  cbv zeta.
  assert (Haddr : "address"%string ∈ Example.addresses_header)
    by (apply elem_of_cons; right; apply elem_of_cons; left; reflexivity).
  assert (Hlen : Forall (fun r => (length r ≤ length Example.addresses_header)%nat)
                        Example.addresses_records)
    by (repeat constructor).
  split; [exact Haddr|]. split; [exact Hlen|].
  exact (geocoding_failures_do_not_abort_the_batch _ _ _ _ _ Haddr Hlen).
Defined.

(** C10 on the same batch. *)
Lemma geocode_addresses_writes_one_row_per_record_witness :
  let header := Example.addresses_header in
  let records := Example.addresses_records in
  let s := Example.start Example.geocoding in
  let raws := filter (fun r => r ≠ []) records in
  let addrs := (fun raw => field (DictReader_row header raw) "address") <$> raws in
  NoDup header
  ∧ "address"%string ∈ header ∧ ("lat"%string ∉ header) ∧ ("lon"%string ∉ header)
  ∧ Forall (fun r => (length r ≤ length header)%nat) records
  ∧ ∃ evs w',
      geocode_addresses (header :: records) "out.csv" "k" s
      = (Ok tt, {| world := w'; log := log s ++ evs |})
      ∧ length (written evs) = length raws
      ∧ Forall2 (fun (x : list string * outcome value) cells =>
                   ∃ lat lon,
                     cells = padded header x.1 ++ [lat; lon]
                     ∧ (not_found x.2 = true → lat = VStr "" ∧ lon = VStr ""))
                (zip raws (geocoder_answers "k" addrs (world s)))
                (written evs).
Proof.
  cbv zeta.
  assert (Hnd : NoDup Example.addresses_header).
  { apply NoDup_cons. split.
    - intros Hin. apply elem_of_cons in Hin as [Heq|Hin]; [discriminate Heq|].
      by apply elem_of_nil in Hin.
    - apply NoDup_cons. split; [apply not_elem_of_nil | apply NoDup_nil_2]. }
  assert (Haddr : "address"%string ∈ Example.addresses_header)
    by (apply elem_of_cons; right; apply elem_of_cons; left; reflexivity).
  assert (Hlat : "lat"%string ∉ Example.addresses_header).
  { intros Hin. repeat (apply elem_of_cons in Hin as [Heq|Hin]; [discriminate Heq|]).
    by apply elem_of_nil in Hin. }
  assert (Hlon : "lon"%string ∉ Example.addresses_header).
  { intros Hin. repeat (apply elem_of_cons in Hin as [Heq|Hin]; [discriminate Heq|]).
    by apply elem_of_nil in Hin. }
  assert (Hlen : Forall (fun r => (length r ≤ length Example.addresses_header)%nat)
                        Example.addresses_records)
    by (repeat constructor).
  split; [exact Hnd|]. split; [exact Haddr|]. split; [exact Hlat|].
  split; [exact Hlon|]. split; [exact Hlen|].
  exact (geocode_addresses_writes_one_row_per_record _ _ _ _ _ Hnd Haddr Hlat Hlon Hlen).
Defined.

(** * Where the code departs from the specification *)

(** C7 fails without the condition on the records' cells.  The second
    record of [Example.ill_typed_students_csv] has both coordinates, but its
    id is S2: [int] raises ValueError and the load ends there.  The first
    record, which has coordinates too, is not retained, for no list of
    students is returned; and the third record, which has none, is never
    reported as skipped. *)
Lemma ill_typed_record_loses_every_student :
  let rows := DictReader Example.ill_typed_students_csv in
  let run := load_students Example.ill_typed_students_csv
               (Example.start Example.solved) in
  (unresolved <$> rows) = [false; false; true]
  ∧ skipped rows = [Skipping (VStr "Chen")]
  ∧ run.1 = Raise ValueError
  ∧ log run.2 = [].
Proof. vm_compute. repeat split. Qed.

(** C1 fails.  Four students of demand one and a single bus of capacity
    three: the total demand exceeds the total capacity, yet the search is
    started (on five nodes and the capacity vector [3]), and the run ends
    with the message that no solution was found, not with a diagnostic of
    its own. *)
Lemma capacity_infeasible_run_still_searches :
  let run := optimize_with_ors 10 Example.students_csv Example.small_buses_csv
               (FFinite 30 0) (FFinite 76 0) "k" (Example.start Example.unsolved) in
  searches (log run.2) = [(5, [[3]])]
  ∧ run.1 = Ok tt
  ∧ printed (log run.2) = [Skipping (VStr "Dara"); NoSolutionFound].
Proof. vm_compute. repeat split. Qed.

(** C2 fails.  The run of C1, whose capacity cannot hold the demand, and a
    run with two buses of capacity two, whose capacity can but whose search
    comes back empty, end alike and print the same lines. *)
Lemma both_failures_print_the_same :
  let infeasible := optimize_with_ors 10 Example.students_csv Example.small_buses_csv
                      (FFinite 30 0) (FFinite 76 0) "k" (Example.start Example.unsolved) in
  let feasible := optimize_with_ors 10 Example.students_csv Example.buses_csv
                    (FFinite 30 0) (FFinite 76 0) "k" (Example.start Example.unsolved) in
  searches (log infeasible.2) = [(5, [[3]])]
  ∧ searches (log feasible.2) = [(5, [[2; 2]])]
  ∧ infeasible.1 = feasible.1
  ∧ printed (log infeasible.2) = printed (log feasible.2).
Proof. vm_compute. repeat split. Qed.

(** C5 fails.  For two coordinates the service answers with a first row of
    two entries and a second row of one: the build returns that partial
    matrix. *)
Lemma partial_matrix_is_returned :
  (build_distance_matrix_ors {| client_key := "k" |}
     [Example.school; (FFinite 76 0, FFinite 31 0)]
     (Example.start Example.ragged)).1
  = Ok [[0; 5000]; [7000]].
Proof. vm_compute. reflexivity. Qed.

(** C6 fails.  Two calls of the entry point that differ in every argument
    both request the profile "driving-car" and both search with a time limit
    of 10 seconds: neither value is among the arguments. *)
Lemma profile_and_time_limit_are_constants :
  let first := optimize_with_ors 10 Example.students_csv Example.buses_csv
                 (FFinite 30 0) (FFinite 76 0) "k" (Example.start Example.solved) in
  let second := optimize_with_ors 20 Example.two_students_csv Example.small_buses_csv
                  (FFinite 12 0) (FFinite 77 0) "another key"
                  (Example.start Example.unsolved) in
  requested_profiles (log first.2) = ["driving-car"%string]
  ∧ requested_profiles (log second.2) = ["driving-car"%string]
  ∧ time_limits (log first.2) = [Some 10]
  ∧ time_limits (log second.2) = [Some 10].
Proof. vm_compute. repeat split. Qed.

(** C10 fails.  A record with three cells under a header of two columns is
    read as one row, geocoded, and then refused by the writer: the script
    stops with an exception and has written no row. *)
Lemma long_record_is_not_written :
  let run := geocode_addresses Example.long_record_csv "out.csv" "k"
               (Example.start Example.geocoding) in
  length (DictReader Example.long_record_csv) = 1%nat
  ∧ run.1 = Raise ValueError
  ∧ written (log run.2) = [].
Proof. vm_compute. repeat split. Qed.

(** * The further properties at work on the scripted world *)

(** X1 on the fleet file of two buses. *)
Lemma load_buses_loads_every_record_witness :
  let header := ["id"; "capacity"]%string in
  let records := [ ["10"; "2"]; ["11"; "2"] ]%string in
  let s := Example.start Example.solved in
  "id"%string ∈ header ∧ "capacity"%string ∈ header
  ∧ (∀ r, r ∈ DictReader (header :: records) → ∃ b, bus_of_row r = Ok b)
  ∧ ∃ fleet,
      load_buses (header :: records) s = (Ok fleet, s)
      ∧ Forall2 (fun r b => bus_of_row r = Ok b) (DictReader (header :: records)) fleet.
Proof.
  cbv zeta.
  assert (Hid : "id"%string ∈ ["id"; "capacity"]%string)
    by (apply elem_of_cons; left; reflexivity).
  assert (Hcap : "capacity"%string ∈ ["id"; "capacity"]%string)
    by (apply elem_of_cons; right; apply elem_of_cons; left; reflexivity).
  assert (Htyped : ∀ r, r ∈ DictReader ([ ["id"; "capacity"]; ["10"; "2"]; ["11"; "2"] ]%string)
                        → ∃ b, bus_of_row r = Ok b).
  { intros r Hr.
    apply list_elem_of_fmap in Hr as (raw & -> & Hraw).
    apply list_elem_of_filter in Hraw as [_ Hraw].
    repeat (apply elem_of_cons in Hraw as [->|Hraw]);
      [ eexists; reflexivity | eexists; reflexivity
      | by apply elem_of_nil in Hraw ]. }
  split; [exact Hid|]. split; [exact Hcap|]. split; [exact Htyped|].
  exact (load_buses_loads_every_record _ _ _ Hid Hcap Htyped).
Defined.

(** X2 on a file whose coordinate columns are named latitude and longitude. *)
Lemma load_students_without_lat_column_witness :
  let header := ["id"; "name"; "latitude"; "longitude"]%string in
  let records := [ []; ["1"; "Asha"; "30"; "76"] ]%string in
  let s := Example.start Example.solved in
  ("lat"%string ∉ header)
  ∧ filter (fun r => r ≠ []) records ≠ []
  ∧ load_students (header :: records) s = (Raise KeyError, s).
Proof.
  cbv zeta.
  assert (Hlat : "lat"%string ∉ ["id"; "name"; "latitude"; "longitude"]%string).
  { intros Hin. repeat (apply elem_of_cons in Hin as [Heq|Hin]; [discriminate Heq|]).
    by apply elem_of_nil in Hin. }
  assert (Hrecords : filter (fun r => r ≠ []) ([ []; ["1"; "Asha"; "30"; "76"] ]%string)
                     ≠ [])
    by (intros Hnil; vm_compute in Hnil; discriminate Hnil).
  split; [exact Hlat|]. split; [exact Hrecords|].
  exact (load_students_without_lat_column _ _ _ Hlat Hrecords).
Defined.

(** X3 on a file whose second record has the id B-2. *)
Lemma load_students_ill_typed_record_aborts_witness :
  let header := ["id"; "name"; "lat"; "lon"]%string in
  let records := [ ["1"; "Asha"; "30"; "76"];
                   ["B-2"; "Bilal"; "31"; "76"];
                   ["3"; "Chen"; "31"; "77"] ]%string in
  let bad := DictReader_row header ["B-2"; "Bilal"; "31"; "76"]%string in
  let s := Example.start Example.solved in
  (∀ k, k ∈ ["id"; "name"; "lat"; "lon"]%string → k ∈ header)
  ∧ bad ∈ DictReader (header :: records)
  ∧ unresolved bad = false
  ∧ student_of_row bad = Raise ValueError
  ∧ ∃ e' s', load_students (header :: records) s = (Raise e', s').
Proof.
  cbv zeta.
  assert (Hcols : ∀ k, k ∈ ["id"; "name"; "lat"; "lon"]%string
                       → k ∈ ["id"; "name"; "lat"; "lon"]%string) by (intros k Hk; exact Hk).
  assert (Hbad : DictReader_row ["id"; "name"; "lat"; "lon"]%string
                                ["B-2"; "Bilal"; "31"; "76"]%string
                 ∈ DictReader ([ ["id"; "name"; "lat"; "lon"];
                                 ["1"; "Asha"; "30"; "76"];
                                 ["B-2"; "Bilal"; "31"; "76"];
                                 ["3"; "Chen"; "31"; "77"] ]%string)).
  { apply list_elem_of_fmap. eexists. split; [reflexivity|].
    apply list_elem_of_filter. split; [discriminate|].
    apply elem_of_cons; right; apply elem_of_cons; left; reflexivity. }
  assert (Hresolved : unresolved (DictReader_row ["id"; "name"; "lat"; "lon"]%string
                                    ["B-2"; "Bilal"; "31"; "76"]%string) = false)
    by (vm_compute; reflexivity).
  assert (Hraise : student_of_row (DictReader_row ["id"; "name"; "lat"; "lon"]%string
                                     ["B-2"; "Bilal"; "31"; "76"]%string)
                   = Raise ValueError)
    by (vm_compute; reflexivity).
  split; [exact Hcols|]. split; [exact Hbad|]. split; [exact Hresolved|].
  split; [exact Hraise|].
  exact (load_students_ill_typed_record_aborts _ _ _ _ _ Hcols Hbad Hresolved Hraise).
Defined.

(** X4 on the four students and the two buses. *)
Lemma create_data_model_nodes_follow_students_witness :
  let data := Example.data_of Example.two_buses in
  let studs := Example.students4 in
  create_data_model studs Example.two_buses Example.school "k"
                    (Example.loaded Example.solved)
  = (Ok data, Example.modelled Example.solved)
  ∧ (coords data !! 0%nat = Some Example.school
     ∧ (∀ i st, studs !! i = Some st →
          students data !! i = Some st
          ∧ coords data !! S i = Some (student_lon st, student_lat st))
     ∧ vehicle_capacities data = bus_capacity <$> Example.two_buses
     ∧ num_vehicles data = Z.of_nat (length Example.two_buses)
     ∧ depot data = 0
     ∧ total (demands data) = Z.of_nat (length studs)).
Proof.
  cbv zeta.
  assert (Hrun : create_data_model Example.students4 Example.two_buses Example.school "k"
                   (Example.loaded Example.solved)
                 = (Ok (Example.data_of Example.two_buses), Example.modelled Example.solved))
    by (vm_compute; reflexivity).
  split; [exact Hrun|].
  exact (create_data_model_nodes_follow_students _ _ _ _ _ _ _ Hrun).
Defined.

(** X5 on a run whose distance service is offline. *)
Lemma matrix_failure_aborts_the_run_witness :
  let s := Example.start Example.geocoding in
  let s1 := Example.loaded Example.geocoding in
  load_students Example.students_csv s = (Ok Example.students4, s1)
  ∧ load_buses Example.buses_csv s1 = (Ok Example.two_buses, s1)
  ∧ ors_distance_matrix "k" Example.request5 (world s1)
    = (Throws (ServiceError "offline"), Example.geocoding)
  ∧ optimize_with_ors 10 Example.students_csv Example.buses_csv
                      (FFinite 30 0) (FFinite 76 0) "k" s
    = (Raise (ServiceError "offline"),
       {| world := Example.geocoding;
          log := log s1 ++ [DistanceMatrixCall "k" Example.request5] |}).
Proof.
  cbv zeta.
  assert (Hstudents : load_students Example.students_csv (Example.start Example.geocoding)
                      = (Ok Example.students4, Example.loaded Example.geocoding))
    by (vm_compute; reflexivity).
  assert (Hbuses : load_buses Example.buses_csv (Example.loaded Example.geocoding)
                   = (Ok Example.two_buses, Example.loaded Example.geocoding))
    by (vm_compute; reflexivity).
  assert (Hmatrix : ors_distance_matrix "k" Example.request5
                      (world (Example.loaded Example.geocoding))
                    = (Throws (ServiceError "offline"), Example.geocoding))
    by reflexivity.
  split; [exact Hstudents|]. split; [exact Hbuses|]. split; [exact Hmatrix|].
  exact (matrix_failure_aborts_the_run 10 _ _ (FFinite 30 0) (FFinite 76 0) "k" _ _ _ _ _ _ _
           Hstudents Hbuses Hmatrix).
Defined.

(** X7 on the run with two buses that finds the two routes of
    [Example.two_routes]. *)
Lemma solved_run_ends_with_the_total_witness :
  let data := Example.data_of Example.two_buses in
  let manager := (routing_of data).1 in
  let routing := (routing_of data).2 in
  let routes := [[0; 1; 2; 6]; [5; 3; 4; 7]] in
  let s := Example.start Example.solved in
  let s1 := Example.loaded Example.solved in
  let s3 := Example.modelled Example.solved in
  load_students Example.students_csv s = (Ok Example.students4, s1)
  ∧ load_buses Example.buses_csv s1 = (Ok Example.two_buses, s1)
  ∧ create_data_model Example.students4 Example.two_buses (FFinite 76 0, FFinite 30 0)
                      "k" s1 = (Ok data, s3)
  ∧ SolveWithParameters routing search_params (world s3)
    = (Some Example.two_routes, Example.solved)
  ∧ well_formed data manager
  ∧ Forall2 (fun v path =>
               route_indices 10 routing Example.two_routes (Start routing v) = Some path)
            (seqZ 0 (num_vehicles data)) routes
  ∧ ∃ dists reports,
      Forall2 (fun path d => route_cost data manager path = Ok d) routes dists
      ∧ Forall2 vehicle_report dists reports
      ∧ optimize_with_ors 10 Example.students_csv Example.buses_csv
                          (FFinite 30 0) (FFinite 76 0) "k" s
        = (Ok tt,
           {| world := Example.solved;
              log := log s3 ++ [SolveCall routing search_params] ++ concat reports
                     ++ [TotalDistance (total dists)] |}).
Proof.
  cbv zeta.
  assert (Hstudents : load_students Example.students_csv (Example.start Example.solved)
                      = (Ok Example.students4, Example.loaded Example.solved))
    by (vm_compute; reflexivity).
  assert (Hbuses : load_buses Example.buses_csv (Example.loaded Example.solved)
                   = (Ok Example.two_buses, Example.loaded Example.solved))
    by (vm_compute; reflexivity).
  assert (Hdata : create_data_model Example.students4 Example.two_buses
                    (FFinite 76 0, FFinite 30 0) "k" (Example.loaded Example.solved)
                  = (Ok (Example.data_of Example.two_buses), Example.modelled Example.solved))
    by (vm_compute; reflexivity).
  assert (Hsolve : SolveWithParameters (routing_of (Example.data_of Example.two_buses)).2
                     search_params (world (Example.modelled Example.solved))
                   = (Some Example.two_routes, Example.solved))
    by reflexivity.
  assert (Hwf : well_formed (Example.data_of Example.two_buses)
                            (routing_of (Example.data_of Example.two_buses)).1).
  { split.
    - repeat constructor.
    - reflexivity.
    - reflexivity.
    - reflexivity.
    - intros i. change (0 ≤ (if (0 <=? i) && (i <? 5) then i else 0) < 5).
      destruct (Z.leb_spec 0 i), (Z.ltb_spec i 5); cbn [andb]; lia. }
  assert (Hroutes :
    Forall2 (fun v path =>
               route_indices 10 (routing_of (Example.data_of Example.two_buses)).2
                             Example.two_routes
                             (Start (routing_of (Example.data_of Example.two_buses)).2 v)
               = Some path)
            (seqZ 0 (num_vehicles (Example.data_of Example.two_buses)))
            [[0; 1; 2; 6]; [5; 3; 4; 7]]).
  { repeat constructor. }
  split; [exact Hstudents|]. split; [exact Hbuses|]. split; [exact Hdata|].
  split; [exact Hsolve|]. split; [exact Hwf|]. split; [exact Hroutes|].
  exact (solved_run_ends_with_the_total 10 _ _ _ _ _ _ _ _ _ _ _ _ _ _ _
           Hstudents Hbuses Hdata Hsolve Hwf Hroutes).
Defined.

(** X8 on the complete answer for the school and the four students. *)
Lemma complete_matrix_gives_well_formed_data_witness :
  let studs := Example.students4 in
  let s := Example.loaded Example.solved in
  ors_distance_matrix "k" Example.request5 (world s)
  = (Returns Example.matrix5, Example.solved)
  ∧ answer_rows Example.matrix5 = Ok Example.rows5
  ∧ forallb (forallb numeric) Example.rows5 = true
  ∧ length Example.rows5 = S (length studs)
  ∧ Forall (fun r => length r = S (length studs)) Example.rows5
  ∧ ∃ data,
      create_data_model studs Example.two_buses Example.school "k" s
      = (Ok data, {| world := Example.solved;
                     log := log s ++ [DistanceMatrixCall "k" Example.request5] |})
      ∧ length (demands data) = length (distance_matrix data)
      ∧ Z.of_nat (length (vehicle_capacities data)) = num_vehicles data
      ∧ ∀ manager,
          (∀ i, 0 ≤ IndexToNode manager i < Z.of_nat (S (length studs))) →
          well_formed data manager
          ∧ (∀ i j, ∃ c, distance_callback data manager i j = Ok c)
          ∧ (∀ i, ∃ d, demand_callback data manager i = Ok d).
Proof.
  cbv zeta.
  assert (Hanswer : ors_distance_matrix "k" Example.request5
                      (world (Example.loaded Example.solved))
                    = (Returns Example.matrix5, Example.solved)) by reflexivity.
  assert (Hrows : answer_rows Example.matrix5 = Ok Example.rows5) by reflexivity.
  assert (Hnumeric : forallb (forallb numeric) Example.rows5 = true) by reflexivity.
  assert (Hlength : length Example.rows5 = S (length Example.students4)) by reflexivity.
  assert (Hsquare : Forall (fun r => length r = S (length Example.students4)) Example.rows5)
    by (repeat constructor).
  split; [exact Hanswer|]. split; [exact Hrows|]. split; [exact Hnumeric|].
  split; [exact Hlength|]. split; [exact Hsquare|].
  exact (complete_matrix_gives_well_formed_data Example.students4 Example.two_buses
           Example.school "k" _ _ _ _ Hanswer Hrows Hnumeric Hlength Hsquare).
Defined.

(** X10 on a file whose address column is named street. *)
Lemma geocode_addresses_without_address_column_witness :
  let header := ["name"; "street"]%string in
  let records := [ ["Asha"; "12 Mall Road"]; ["Chen"; "nowhere"] ]%string in
  let s := Example.start Example.geocoding in
  ("address"%string ∉ header)
  ∧ filter (fun r => r ≠ []) records ≠ []
  ∧ geocode_addresses (header :: records) "out.csv" "k" s
    = (Raise KeyError,
       {| world := world s;
          log := log s ++ [WriteHeader (header ++ ["lat"; "lon"]%string)] |}).
Proof.
  cbv zeta.
  assert (Haddr : "address"%string ∉ ["name"; "street"]%string).
  { intros Hin. repeat (apply elem_of_cons in Hin as [Heq|Hin]; [discriminate Heq|]).
    by apply elem_of_nil in Hin. }
  assert (Hrecords : filter (fun r => r ≠ [])
                       ([ ["Asha"; "12 Mall Road"]; ["Chen"; "nowhere"] ]%string) ≠ [])
    by (intros Hnil; vm_compute in Hnil; discriminate Hnil).
  split; [exact Haddr|]. split; [exact Hrecords|].
  exact (geocode_addresses_without_address_column _ _ "out.csv" "k" _ Haddr Hrecords).
Defined.

(** X11 on a file that was geocoded before. *)
Lemma geocode_addresses_overwrites_coordinates_witness :
  let header := Example.geocoded_header in
  let records := Example.geocoded_records in
  let s := Example.start Example.geocoding in
  let rows := DictReader (header :: records) in
  let addrs := (fun r => field r "address") <$> rows in
  "address"%string ∈ header
  ∧ Forall (fun r => (length r ≤ length header)%nat) records
  ∧ ∃ evs w',
      geocode_addresses (header :: records) "out.csv" "k" s
      = (Ok tt, {| world := w'; log := log s ++ evs |})
      ∧ Forall2 (fun (answer : outcome value) cells =>
                   ∀ i : nat,
                     (header !! i = Some "lat"%string →
                      cells !! i = Some (geocoded_coords answer).2)
                     ∧ (header !! i = Some "lon"%string →
                        cells !! i = Some (geocoded_coords answer).1))
                (geocoder_answers "k" addrs (world s))
                (written evs).
Proof.
  cbv zeta.
  assert (Haddr : "address"%string ∈ Example.geocoded_header)
    by (apply elem_of_cons; right; apply elem_of_cons; left; reflexivity).
  assert (Hlen : Forall (fun r => (length r ≤ length Example.geocoded_header)%nat)
                        Example.geocoded_records)
    by (repeat constructor).
  split; [exact Haddr|]. split; [exact Hlen|].
  exact (geocode_addresses_overwrites_coordinates _ _ "out.csv" "k" _ Haddr Hlen).
Defined.

(** X12 on the batch of four addresses. *)
Lemma geocode_addresses_output_file_witness :
  let header := Example.addresses_header in
  let records := Example.addresses_records in
  let s := Example.start Example.geocoding in
  let raws := filter (fun r => r ≠ []) records in
  let addrs := (fun raw => field (DictReader_row header raw) "address") <$> raws in
  NoDup header
  ∧ "address"%string ∈ header ∧ ("lat"%string ∉ header) ∧ ("lon"%string ∉ header)
  ∧ Forall (fun r => (length r ≤ length header)%nat) records
  ∧ ∃ evs w',
      geocode_addresses (header :: records) "out.csv" "k" s
      = (Ok tt, {| world := w'; log := log s ++ evs |})
      ∧ head evs = Some (WriteHeader (header ++ ["lat"; "lon"]%string))
      ∧ written evs
        = zip_with (fun raw answer =>
                      padded header raw
                      ++ [(geocoded_coords answer).2; (geocoded_coords answer).1])
                   raws (geocoder_answers "k" addrs (world s)).
Proof.
  cbv zeta.
  assert (Hnd : NoDup Example.addresses_header).
  { apply NoDup_cons. split.
    - intros Hin. apply elem_of_cons in Hin as [Heq|Hin]; [discriminate Heq|].
      by apply elem_of_nil in Hin.
    - apply NoDup_cons. split; [apply not_elem_of_nil | apply NoDup_nil_2]. }
  assert (Haddr : "address"%string ∈ Example.addresses_header)
    by (apply elem_of_cons; right; apply elem_of_cons; left; reflexivity).
  assert (Hlat : "lat"%string ∉ Example.addresses_header).
  { intros Hin. repeat (apply elem_of_cons in Hin as [Heq|Hin]; [discriminate Heq|]).
    by apply elem_of_nil in Hin. }
  assert (Hlon : "lon"%string ∉ Example.addresses_header).
  { intros Hin. repeat (apply elem_of_cons in Hin as [Heq|Hin]; [discriminate Heq|]).
    by apply elem_of_nil in Hin. }
  assert (Hlen : Forall (fun r => (length r ≤ length Example.addresses_header)%nat)
                        Example.addresses_records)
    by (repeat constructor).
  split; [exact Hnd|]. split; [exact Haddr|]. split; [exact Hlat|].
  split; [exact Hlon|]. split; [exact Hlen|].
  exact (geocode_addresses_output_file _ _ "out.csv" "k" _ Hnd Haddr Hlat Hlon Hlen).
Defined.

(** X13 on the same batch: two failure messages, for the second and the
    last record. *)
Lemma geocode_addresses_messages_witness :
  let header := Example.addresses_header in
  let records := Example.addresses_records in
  let s := Example.start Example.geocoding in
  let addrs := (fun r => field r "address") <$> DictReader (header :: records) in
  "address"%string ∈ header
  ∧ Forall (fun r => (length r ≤ length header)%nat) records
  ∧ ∃ evs w',
      geocode_addresses (header :: records) "out.csv" "k" s
      = (Ok tt, {| world := w'; log := log s ++ evs |})
      ∧ printed evs
        = concat (zip_with failure_message addrs
                    (geocoder_answers "k" addrs (world s)))
          ++ [OutputWritten "out.csv"].
Proof.
  cbv zeta.
  assert (Haddr : "address"%string ∈ Example.addresses_header)
    by (apply elem_of_cons; right; apply elem_of_cons; left; reflexivity).
  assert (Hlen : Forall (fun r => (length r ≤ length Example.addresses_header)%nat)
                        Example.addresses_records)
    by (repeat constructor).
  split; [exact Haddr|]. split; [exact Hlen|].
  exact (geocode_addresses_messages _ _ "out.csv" "k" _ Haddr Hlen).
Defined.
